(** * Waste-report lifecycle: the handlers of src/App.js over a document store

    The development embeds the report lifecycle handlers of the application
    ([handleProfileSetup], [handleReportSubmission], [handleClaimReport],
    [handleSubmitProof], [handleFinalApproval]), the control gating of
    [ReportItem] and the reward suggestion helper
    ([getRewardSuggestionRemote]) as functions over an explicit document
    store, and states the lifecycle properties about them. *)

From Stdlib Require Import ZArith Lia Ascii String.
From stdpp Require Import base option list strings gmap fin_maps pretty.

Local Open Scope string_scope.
Local Open Scope Z_scope.

(** ** Documents and the store *)

(** Field values found in the documents the application writes. Numbers are
    the integer-valued doubles ([VNum]), the two infinities and NaN. *)
Inductive Value : Type :=
| VNull
| VBool (b : bool)
| VNum (n : Z)
| VInf (negative : bool)
| VNaN
| VStr (s : string)
| VTime (t : Z)
| VLoc (lat lon : string).

#[global] Instance Value_eq_dec : EqDecision Value.
Proof. solve_decision. Defined.

(** A document is a finite map from field names to values. *)
Abbreviation Doc := (gmap string Value).

(** The two collections the application touches:
    [artifacts/APP_ID/users/<uid>/profiles/public] and
    [artifacts/APP_ID/public/data/reports/<id>]. *)
Inductive DocRef : Type :=
| ProfileRef (uid : string)
| ReportRef (rid : string).

Record Store : Type := mkStore {
  profiles : gmap string Doc;
  reports : gmap string Doc
}.

Definition getDoc (db : Store) (r : DocRef) : option Doc :=
  match r with
  | ProfileRef u => profiles db !! u
  | ReportRef i => reports db !! i
  end.

Definition putDoc (db : Store) (r : DocRef) (d : Doc) : Store :=
  match r with
  | ProfileRef u => mkStore (<[u := d]> (profiles db)) (reports db)
  | ReportRef i => mkStore (profiles db) (<[i := d]> (reports db))
  end.

(** Outcome of a store call: the promise resolves or rejects with a message. *)
Inductive Res (A : Type) : Type :=
| Ok (a : A)
| Err (msg : string).
Arguments Ok {A} a.
Arguments Err {A} msg.

(** A store call can be refused by the environment (network, permission,
    contention); [fault] carries the rejection message when it is. *)
Abbreviation Fault := (option string).

Definition err_no_document : string := "No document to update".
Definition err_reads_first : string :=
  "Firestore transactions require all reads to be executed before all writes.".

(** [setDoc(ref, data)]: writes the whole document. *)
Definition setDoc (fault : Fault) (db : Store) (r : DocRef) (d : Doc) : Res Store :=
  match fault with
  | Some e => Err e
  | None => Ok (putDoc db r d)
  end.

(** [updateDoc(ref, fields)]: overwrites the named top-level fields of an
    existing document and rejects when the document does not exist. *)
Definition applyUpdate (db : Store) (r : DocRef) (fields : Doc) : option Store :=
  match getDoc db r with
  | Some d => Some (putDoc db r (fields ∪ d))
  | None => None
  end.

Definition updateDoc (fault : Fault) (db : Store) (r : DocRef) (fields : Doc) : Res Store :=
  match fault with
  | Some e => Err e
  | None =>
      match applyUpdate db r fields with
      | Some db' => Ok db'
      | None => Err err_no_document
      end
  end.

(** [addDoc(collection, data)]: a set on a document with a generated id. *)
Definition addDoc (fault : Fault) (db : Store) (newId : string) (d : Doc) : Res Store :=
  setDoc fault db (ReportRef newId) d.

(** ** Notifications *)

Inductive Severity : Type := info | success | error | warning.

Record Alert : Type := mkAlert {
  title : string;
  message : string;
  type : Severity
}.

Definition is_failure (a : Alert) : bool :=
  match type a with error => true | _ => false end.

(** ** Transactions *)

(** The body handed to [runTransaction], as the sequence of calls it makes on
    the transaction object; [TxGet] passes on [snapshot.data()], which is
    undefined ([None]) for a missing document. *)
Inductive Txn : Type :=
| TxDone
| TxUpdate (r : DocRef) (fields : Doc) (k : Txn)
| TxGet (r : DocRef) (k : option Doc → Txn)
| TxAlert (a : Alert) (k : Txn).

Inductive TxOp : Type :=
| OpRead (r : DocRef)
| OpWrite (r : DocRef) (fields : Doc).

Definition is_read (o : TxOp) : bool :=
  match o with OpRead _ => true | OpWrite _ _ => false end.

(** The calls a body makes when its reads are answered from [db]. *)
Fixpoint tx_ops (db : Store) (t : Txn) : list TxOp :=
  match t with
  | TxDone => []
  | TxUpdate r f k => OpWrite r f :: tx_ops db k
  | TxGet r k => OpRead r :: tx_ops db (k (getDoc db r))
  | TxAlert _ k => tx_ops db k
  end.

(** The store's contract on a transaction body: every read comes before every
    write. *)
Fixpoint reads_first (ops : list TxOp) : bool :=
  match ops with
  | [] => true
  | OpRead _ :: rest => reads_first rest
  | OpWrite _ _ :: rest => forallb (λ o, negb (is_read o)) rest
  end.

(** State of a running body: the buffered writes and the notifications raised
    so far. *)
Inductive BodyResult : Type :=
| BodyDone (writes : list (DocRef * Doc)) (alerts : list Alert)
| BodyThrew (msg : string) (alerts : list Alert).

(** Runs a body. Writes are buffered; a read is answered from the store as it
    was when the transaction began. With [enforce] set the store holds the
    body to its read-then-write contract: a read issued after a write throws,
    as the Firestore client does, with the message [err_reads_first]. *)
Fixpoint run_body (enforce : bool) (db : Store) (writes : list (DocRef * Doc))
    (alerts : list Alert) (t : Txn) : BodyResult :=
  match t with
  | TxDone => BodyDone writes alerts
  | TxUpdate r f k => run_body enforce db (writes ++ [(r, f)]) alerts k
  | TxGet r k =>
      match enforce, writes with
      | true, _ :: _ => BodyThrew err_reads_first alerts
      | _, _ => run_body enforce db writes alerts (k (getDoc db r))
      end
  | TxAlert a k => run_body enforce db writes (alerts ++ [a]) k
  end.

(** Commit: the buffered updates are applied together, and the commit fails as
    a whole when one of them targets a missing document. *)
Fixpoint commit (db : Store) (writes : list (DocRef * Doc)) : option Store :=
  match writes with
  | [] => Some db
  | (r, f) :: rest =>
      match applyUpdate db r f with
      | Some db' => commit db' rest
      | None => None
      end
  end.

(** A commit the store refuses: the message of the error, and whether it is
    one of the errors on which the client runs the body again. *)
Record Refusal : Type := mkRefusal {
  refusal_message : string;
  refusal_retried : bool
}.

(** The client makes at most five attempts. *)
Definition maxAttempts : nat := 5.

(** [runTransaction(db, body)]: the resulting store, the rejection message if
    any, and the notifications the body raised. An error thrown by the body
    and a missing document end the transaction at once; a refused commit ends
    it at once or after the body has run [maxAttempts] times, each run raising
    its notifications again. *)
Definition transact (enforce : bool) (fault : option Refusal) (db : Store)
    (body : Txn) : Store * option string * list Alert :=
  match run_body enforce db [] [] body with
  | BodyThrew e al => (db, Some e, al)
  | BodyDone writes al =>
      match fault with
      | Some r =>
          (db, Some (refusal_message r),
           if refusal_retried r then concat (replicate maxAttempts al) else al)
      | None =>
          match commit db writes with
          | Some db' => (db', None, al)
          | None => (db, Some err_no_document, al)
          end
      end
  end.

(** The Firestore client enforces the order of reads and writes. *)
Definition runTransaction : option Refusal → Store → Txn
    → Store * option string * list Alert :=
  transact true.

(** ** JavaScript coercions used by the handlers *)

(** Truthiness of a property read ([None] is undefined). *)
Definition truthy (v : option Value) : bool :=
  match v with
  | None | Some VNull => false
  | Some (VBool b) => b
  | Some (VNum n) => negb (n =? 0)%Z
  | Some (VInf _) => true
  | Some VNaN => false
  | Some (VStr s) => negb (bool_decide (s = ""))
  | Some (VTime _) | Some (VLoc _ _) => true
  end.

(** ** Numbers *)

(** A non-negative integer rounded to 53 significant bits, ties to even. *)
Definition round53 (a : Z) : Z :=
  if a <? 2 ^ 53 then a
  else
    let e := Z.log2 a - 52 in
    let q := a / 2 ^ e in
    let r := a mod 2 ^ e in
    let up := (2 ^ (e - 1) <? r) || ((r =? 2 ^ (e - 1)) && Z.odd q) in
    (if up then q + 1 else q) * 2 ^ e.

(** The double nearest to an integer: the number JavaScript holds when the
    exact result of an integer operation is [n]. *)
Definition to_double (n : Z) : Value :=
  let m := round53 (Z.abs n) in
  if m <? 2 ^ 1024 then VNum (Z.sgn n * m) else VInf (n <? 0).

(** [a + b] on numbers. *)
Definition js_add (a b : Value) : Value :=
  match a, b with
  | VNum x, VNum y => to_double (x + y)
  | VInf s, VNum _ | VNum _, VInf s => VInf s
  | VInf s, VInf t => if Bool.eqb s t then VInf s else VNaN
  | _, _ => VNaN
  end.

(** [a * 3] on numbers. *)
Definition js_times3 (a : Value) : Value :=
  match a with
  | VNum x => to_double (x * 3)
  | VInf s => VInf s
  | _ => VNaN
  end.

(** [v || d] for a numeric field. The data model keeps integers in
    [baseReward] and in the point totals; any other content counts as unset.
    A stored integer is read as the double nearest to it. *)
Definition num_or (v : option Value) (d : Z) : Value :=
  match v with
  | Some (VNum n) => if (n =? 0)%Z then VNum d else to_double n
  | Some (VInf s) => VInf s
  | _ => VNum d
  end.

(** The shortest decimal significand that reads back as the double [v]: for
    [k] = 1, 2, ... the first [s] of [k] digits with [s * 10^(n - k)] rounding
    to [v] (the nearer one when two do), [n] being the number of digits of
    [v]. *)
Fixpoint shortest_digits (fuel : nat) (k n v : Z) : Z * Z :=
  match fuel with
  | O => (v, n)
  | S fuel' =>
      let p := 10 ^ (n - k) in
      let lo := v / p in
      let hi := lo + 1 in
      let lo_ok := bool_decide (to_double (lo * p) = VNum v) in
      let hi_ok := bool_decide (to_double (hi * p) = VNum v) && (hi <? 10 ^ k) in
      if lo_ok && hi_ok then
        (if v - lo * p <=? hi * p - v then (lo, k) else (hi, k))
      else if lo_ok then (lo, k)
      else if hi_ok then (hi, k)
      else shortest_digits fuel' (k + 1) n v
  end.

(** [String(n)] for an integer-valued double: plain digits below 10^21, and
    from there on a significand and an exponent, as in 1.5e+21. *)
Definition number_text (n : Z) : string :=
  let v := Z.abs n in
  if v <? 10 ^ 21 then pretty n
  else
    let digits := Z.of_nat (String.length (pretty v)) in
    let '(sig, _) := shortest_digits 17 1 digits v in
    let text := pretty sig in
    (if n <? 0 then "-" else "")
    +:+ match text with
        | String d EmptyString => String d EmptyString
        | String d rest => String d ("." +:+ rest)
        | EmptyString => EmptyString
        end
    +:+ "e+" +:+ pretty (digits - 1).

(** A property spliced into a template string. *)
Definition seg (v : option Value) : string :=
  match v with
  | None => "undefined"
  | Some VNull => "null"
  | Some (VBool true) => "true"
  | Some (VBool false) => "false"
  | Some (VNum n) =>
      match to_double n with
      | VNum m => number_text m
      | VInf true => "-Infinity"
      | _ => "Infinity"
      end
  | Some (VInf false) => "Infinity"
  | Some (VInf true) => "-Infinity"
  | Some VNaN => "NaN"
  | Some (VStr s) => s
  | Some (VTime t) =>
      "Timestamp(seconds=" +:+ pretty (t / 1000) +:+ ", nanoseconds="
      +:+ pretty (t mod 1000 * 1000000) +:+ ")"
  | Some (VLoc _ _) => "[object Object]"
  end.

(** ** Session state of the [App] component *)

Record Session : Type := mkSession {
  userId : option string;
  userProfile : option Doc;
  userName : string;
  userRole : string
}.

(** [userId] as a field value: the uid, or null. *)
Definition id_value (u : option string) : Value :=
  match u with Some x => VStr x | None => VNull end.

(** [!userId]: null and the empty string are falsy. *)
Definition no_user (s : Session) : bool := negb (truthy (Some (id_value (userId s)))).

(** [!userProfile]: undefined and null are both [None]. *)
Definition no_profile (s : Session) : bool :=
  match userProfile s with Some _ => false | None => true end.

(** The report object a list item holds: [{ id: d.id, ...d.data() }]. *)
Definition snapshot (rid : string) (d : Doc) : Doc := d ∪ {[ "id" := VStr rid ]}.

(** ** Claim and proof handlers *)

Definition handleClaimReport (fault : Fault) (s : Session) (db : Store)
    (reportId : string) : Store * list Alert :=
  if no_user s || no_profile s then
    (db, [mkAlert "Claim Failed" "Profile not ready." error])
  else
    match updateDoc fault db (ReportRef reportId)
            (<["status" := VStr "Claimed"]>
             (<["pickerId" := id_value (userId s)]>
              {[ "pickerName" := VStr (userName s) ]})) with
    | Ok db' => (db', [mkAlert "Report Claimed!" "Proceed to cleanup." success])
    | Err e => (db, [mkAlert "Claim Failed" e error])
    end.

(** [resized] is the outcome of [resizeImageAndConvertToBase64] on the chosen
    file, [now] the value of [new Date()]. *)
Definition handleSubmitProof (fault : Fault) (now : Z) (s : Session) (db : Store)
    (reportId : string) (resized : Res string) (location : Value)
    : Store * list Alert :=
  if no_user s || no_profile s then
    (db, [mkAlert "Submission Failed" "Profile not ready." error])
  else
    match resized with
    | Err e => (db, [mkAlert "Submission Failed" e error])
    | Ok base64Image =>
        match updateDoc fault db (ReportRef reportId)
                (<["status" := VStr "Pending Review"]>
                 (<["cleanupPhotoUrl" := VStr base64Image]>
                  (<["pickerLocation" := location]>
                   {[ "proofSubmittedAt" := VTime now ]}))) with
        | Ok db' => (db', [mkAlert "Proof Submitted!" "Pending monitor review." info])
        | Err e => (db, [mkAlert "Submission Failed" e error])
        end
    end.

(** ** Monitor decision *)

Definition rewardReporter (report : Doc) : Value := num_or (report !! "baseReward") 10.
Definition rewardPicker (report : Doc) : Value := js_times3 (rewardReporter report).

(** The three document references built at the top of [handleFinalApproval];
    identifiers are taken to be valid path segments. *)
Definition reportRef (report : Doc) : DocRef := ReportRef (seg (report !! "id")).
Definition reporterProfileRef (report : Doc) : DocRef :=
  ProfileRef (seg (report !! "reporterId")).
Definition pickerProfileRef (report : Doc) : DocRef :=
  ProfileRef (seg (report !! "pickerId")).

Definition rewards_text (prefix : string) (report : Doc) : string :=
  prefix +:+ "Reporter +" +:+ seg (Some (rewardReporter report))
         +:+ ", Picker +" +:+ seg (Some (rewardPicker report)) +:+ ".".

Definition completed_fields (s : Session) (now : Z) (report : Doc) : Doc :=
  <["status" := VStr "Completed"]>
  (<["monitorId" := id_value (userId s)]>
   (<["monitorName" := VStr (userName s)]>
    (<["completedAt" := VTime now]>
     (<["reporterRewardIssued" := VBool true]>
      (<["pickerRewardIssued" := VBool true]>
       {[ "monitorMessage" :=
            VStr (rewards_text "Thank you for cleaning. Rewards: " report) ]}))))).

Definition rejected_fields (s : Session) : Doc :=
  <["status" := VStr "Rejected"]>
  (<["monitorId" := id_value (userId s)]>
   (<["monitorName" := VStr (userName s)]>
    (<["monitorMessage" := VStr "Proof rejected. Please resubmit."]>
     (<["pickerId" := VNull]>
      {[ "pickerName" := VNull ]})))).

(** [snapshot.data()?.field || 0] *)
Definition current_points (snap : option Doc) (field : string) : Value :=
  match snap with
  | Some d => num_or (d !! field) 0
  | None => VNum 0
  end.

(** The callback passed to [runTransaction], in the order of its calls. *)
Definition approval_body (s : Session) (now : Z) (report : Doc)
    (approvalType : string) : Txn :=
  if decide (approvalType = "approve") then
    TxUpdate (reportRef report) (completed_fields s now report)
      (TxGet (reporterProfileRef report) (λ rp,
         let currentReporterPoints := current_points rp "totalReporterPoints" in
         TxUpdate (reporterProfileRef report)
           {[ "totalReporterPoints" :=
                js_add currentReporterPoints (rewardReporter report) ]}
           (TxGet (pickerProfileRef report) (λ pp,
              let currentPickerPoints := current_points pp "totalPickerPoints" in
              TxUpdate (pickerProfileRef report)
                {[ "totalPickerPoints" :=
                     js_add currentPickerPoints (rewardPicker report) ]}
                (TxAlert (mkAlert "Report Approved"
                            (rewards_text "Rewards issued: " report) success)
                   TxDone)))))
  else
    TxUpdate (reportRef report) (rejected_fields s)
      (TxAlert (mkAlert "Report Rejected" "Proof rejected. Report re-opened." error)
         TxDone).

(** [handleFinalApproval] over a transaction runner; [enforce] is the store's
    reads-before-writes check. *)
Definition finalApprovalWith (enforce : bool) (fault : option Refusal) (now : Z)
    (s : Session) (db : Store) (report : Doc) (approvalType : string)
    : Store * list Alert :=
  if negb (bool_decide (userRole s = "monitor")) || no_profile s then (db, [])
  else
    match transact enforce fault db (approval_body s now report approvalType) with
    | (db', None, al) => (db', al)
    | (db', Some e, al) => (db', (al ++ [mkAlert "Approval Failed" e error])%list)
    end.

(** [handleFinalApproval] as the application runs it, on [runTransaction]. *)
Definition handleFinalApproval : option Refusal → Z → Session → Store → Doc → string
    → Store * list Alert :=
  finalApprovalWith true.

(** ** Profile setup *)

Definition handleProfileSetup (fault : Fault) (now : Z) (s : Session) (db : Store)
    (name role : string) : Store * list Alert :=
  if no_user s then (db, [])
  else
    let profileData : Doc :=
      <["name" := VStr name]>
      (<["role" := VStr role]>
       (<["totalReporterPoints" := VNum 0]>
        (<["totalPickerPoints" := VNum 0]>
         (<["dateJoined" := VTime now]>
          {[ "publicUserId" := id_value (userId s) ]})))) in
    match setDoc fault db (ProfileRef (seg (Some (id_value (userId s))))) profileData with
    | Ok db' => (db', [mkAlert "Setup Success!" "Profile created." success])
    | Err e => (db, [mkAlert "Setup Failed" e error])
    end.

(** ** Advisory reward suggestion *)

(** A parsed proxy reply. *)
#[local] Unset Elimination Schemes.
Inductive JSON : Type :=
| JNull
| JBool (b : bool)
| JNum (n : Z)
| JStr (s : string)
| JArr (items : list JSON)
| JObj (props : list (string * JSON)).
#[local] Set Elimination Schemes.

Fixpoint assoc (k : string) (ps : list (string * JSON)) : option JSON :=
  match ps with
  | [] => None
  | (k', v) :: rest => if decide (k' = k) then Some v else assoc k rest
  end.

(** [j?.name] for the property names the client reads ([None] is undefined;
    arrays and strings have no such property). *)
Definition opt_field (j : option JSON) (name : string) : option JSON :=
  match j with
  | Some (JObj ps) => assoc name ps
  | _ => None
  end.

(** [j?.[0]] *)
Definition opt_first (j : option JSON) : option JSON :=
  match j with
  | Some (JArr l) => head l
  | Some (JStr (String c _)) => Some (JStr (String c ""))
  | Some (JObj ps) => assoc "0" ps
  | _ => None
  end.

(** [callGeminiForText], from the value [callGeminiProxy] resolved to ([None]
    is its null, returned on a failed or non-ok request):
    [json?.candidates?.[0]?.content?.parts?.[0]?.text ?? ""]. *)
Definition callGeminiForText (json : option JSON) : JSON :=
  match opt_field (opt_first (opt_field (opt_field (opt_first
          (opt_field json "candidates")) "content") "parts")) "text" with
  | None | Some JNull => JStr ""
  | Some text => text
  end.

Definition is_digit (c : ascii) : bool :=
  (48 <=? nat_of_ascii c)%nat && (nat_of_ascii c <=? 57)%nat.

Fixpoint take_digits (s : string) : string :=
  match s with
  | String c rest => if is_digit c then String c (take_digits rest) else ""
  | EmptyString => ""
  end.

(** [s.match(/\d+/)]: the first maximal run of decimal digits, if any. *)
Fixpoint match_digits (s : string) : option string :=
  match s with
  | EmptyString => None
  | String c rest => if is_digit c then Some (take_digits s) else match_digits rest
  end.

(** [parseInt(digits, 10)] on a run of digits. *)
Fixpoint parse_digits (acc : Z) (s : string) : Z :=
  match s with
  | EmptyString => acc
  | String c rest => parse_digits (10 * acc + (Z.of_nat (nat_of_ascii c) - 48)) rest
  end.

Definition parseInt (s : string) : Value := to_double (parse_digits 0 s).

(** [getRewardSuggestionRemote]: throws when the reply text is not a string
    (it has no [match] method). *)
Definition getRewardSuggestionRemote (json : option JSON) : Res Value :=
  match callGeminiForText json with
  | JStr reply =>
      match match_digits reply with
      | Some numeric => Ok (parseInt numeric)
      | None => Ok (VNum 10)
      end
  | _ => Err "reply.match is not a function"
  end.

(** ** Report submission *)

Definition classes : list string :=
  ["High-Priority Plastic"; "Hazardous E-Waste"; "Organic Compost"; "Mixed Recyclables"].

Definition includes (s sub : string) : bool :=
  match index 0 sub s with Some _ => true | None => false end.

(** [classifyWasteLocal]; [pick] is [Math.floor(Math.random() * 4)]. *)
Definition classifyWasteLocal (pick : nat) : string * string :=
  let classification := nth (pick mod 4) classes "" in
  let priority :=
    if includes classification "Hazardous" || includes classification "Plastic"
    then "High" else "Medium" in
  (classification, priority).

(** What the environment supplies to one report submission. *)
Record SubmitEnv : Type := mkSubmitEnv {
  resized : Res string;
  pick : nat;
  proxyReply : option JSON;
  newId : string;
  submittedAt : Z;
  storeFault : Fault
}.

(** The reward stored with a new report. *)
Definition resolveBaseReward (json : option JSON) : Value :=
  match getRewardSuggestionRemote json with
  | Ok n => if truthy (Some n) then n else VNum 10
  | Err _ => VNum 10
  end.

Definition newReport (s : Session) (env : SubmitEnv) (base64Image : string)
    (location : Value) : Doc :=
  let '(classification, priority) := classifyWasteLocal (pick env) in
  <["reporterId" := id_value (userId s)]>
  (<["reporterName" := VStr (userName s)]>
   (<["location" := location]>
    (<["originalImageUrl" := VStr base64Image]>
     (<["aiClassification" := VStr classification]>
      (<["priority" := VStr priority]>
       (<["baseReward" := resolveBaseReward (proxyReply env)]>
        (<["status" := VStr "Reported"]>
         (<["pickerId" := VNull]>
          (<["pickerName" := VNull]>
           (<["reportedAt" := VTime (submittedAt env)]>
            (<["reporterRewardIssued" := VBool false]>
             {[ "pickerRewardIssued" := VBool false ]}))))))))))).

Definition handleReportSubmission (env : SubmitEnv) (s : Session) (db : Store)
    (location : Value) : Store * list Alert :=
  if no_user s || no_profile s then
    (db, [mkAlert "Submission Failed"
            "Please finish setup and wait for profile to load." error])
  else
    match resized env with
    | Err e => (db, [mkAlert "Submission Failed" e error])
    | Ok base64Image =>
        match addDoc (storeFault env) db (newId env)
                (newReport s env base64Image location) with
        | Ok db' =>
            (db', [mkAlert "Report Submitted!"
                     ("Classified: " +:+ (classifyWasteLocal (pick env)).1
                        +:+ ". Reward: " +:+ seg (Some (resolveBaseReward (proxyReply env)))
                        +:+ " pts. ID: " +:+ newId env) success])
        | Err e => (db, [mkAlert "Submission Failed" e error])
        end
    end.

(** ** Controls rendered by [ReportItem] *)

(** What a list item renders: the "Claim Job" button, the "Submit Proof"
    button (it opens and closes the proof form), the proof form itself, and
    the Approve and Reject buttons. *)
Record Controls : Type := mkControls {
  claimJob : bool;
  submitProof : bool;
  proofForm : bool;
  approveReject : bool
}.

Definition has_status (report : Doc) (st : string) : bool :=
  bool_decide (report !! "status" = Some (VStr st)).

(** [showProof] is the item's local state, false when the item is mounted. *)
Definition ReportItem (s : Session) (report : Doc) (showProof : bool) : Controls :=
  let isPicker := bool_decide (report !! "pickerId" = Some (id_value (userId s))) in
  let isReported := has_status report "Reported" in
  let isClaimed := has_status report "Claimed" in
  let isPending := has_status report "Pending Review" in
  {| claimJob := bool_decide (userRole s = "picker") && isReported;
     submitProof := bool_decide (userRole s = "picker") && isClaimed && isPicker
                    && negb (truthy (report !! "cleanupPhotoUrl"));
     proofForm := showProof;
     approveReject := bool_decide (userRole s = "monitor") && isPending |}.

(** ** Sequences of engine operations *)

Inductive Event : Type :=
| ProfileSetup (fault : Fault) (now : Z) (s : Session) (name role : string)
| ReportSubmission (env : SubmitEnv) (s : Session) (location : Value)
| ClaimReport (fault : Fault) (s : Session) (reportId : string)
| ProofSubmission (fault : Fault) (now : Z) (s : Session) (reportId : string)
    (resizedProof : Res string) (location : Value)
| FinalApproval (fault : option Refusal) (now : Z) (s : Session) (report : Doc)
    (approvalType : string).

Definition step (enforce : bool) (db : Store) (e : Event) : Store :=
  match e with
  | ProfileSetup fault now s name role => (handleProfileSetup fault now s db name role).1
  | ReportSubmission env s location => (handleReportSubmission env s db location).1
  | ClaimReport fault s reportId => (handleClaimReport fault s db reportId).1
  | ProofSubmission fault now s reportId r location =>
      (handleSubmitProof fault now s db reportId r location).1
  | FinalApproval fault now s report approvalType =>
      (finalApprovalWith enforce fault now s db report approvalType).1
  end.

Definition run (enforce : bool) (db : Store) (evs : list Event) : Store :=
  fold_left (step enforce) evs db.

(** The point total of a user as the settlement reads it. *)
Definition points (db : Store) (uid field : string) : Value :=
  current_points (profiles db !! uid) field.

(** The profile a setup event writes, if it writes one. *)
Definition setup_target (e : Event) : option string :=
  match e with
  | ProfileSetup _ _ s _ _ =>
      if no_user s then None else Some (seg (Some (id_value (userId s))))
  | _ => None
  end.

(** Order of two totals as numbers. *)
Definition total_le (a b : Value) : Prop :=
  match a, b with
  | VNum x, VNum y => x ≤ y
  | VNum _, VInf t => t = false
  | VInf s, VNum _ => s = true
  | VInf s, VInf t => s = true ∨ t = false
  | _, _ => False
  end.

Definition is_approval (e : Event) : bool :=
  match e with
  | FinalApproval _ _ _ _ approvalType => bool_decide (approvalType = "approve")
  | _ => false
  end.

Definition is_setup (e : Event) : bool :=
  match e with ProfileSetup _ _ _ _ _ => true | _ => false end.

(** ** The transition table of the specification *)

(** The four guarded transitions of the table (creation has no report yet). *)
Inductive Transition : Type := TClaim | TSubmitProof | TApprove | TReject.

(** Precondition column of the table: actor role and report state required
    for each transition. *)
Definition table_precondition (s : Session) (report : Doc) (t : Transition) : Prop :=
  match t with
  | TClaim =>
      userRole s = "picker" ∧ report !! "status" = Some (VStr "Reported")
  | TSubmitProof =>
      userRole s = "picker" ∧ report !! "status" = Some (VStr "Claimed")
      ∧ report !! "pickerId" = Some (id_value (userId s))
      ∧ truthy (report !! "cleanupPhotoUrl") = false
  | TApprove | TReject =>
      userRole s = "monitor" ∧ report !! "status" = Some (VStr "Pending Review")
  end.

(** The control that starts each transition: "Claim Job" calls
    [handleClaimReport], "Submit Proof" opens the form whose submit calls
    [handleSubmitProof], Approve and Reject call [handleFinalApproval]. *)
Definition control (item : Controls) (t : Transition) : bool :=
  match t with
  | TClaim => claimJob item
  | TSubmitProof => submitProof item
  | TApprove | TReject => approveReject item
  end.

(** A reply without a decimal digit. *)
Fixpoint no_digit (s : string) : bool :=
  match s with
  | EmptyString => true
  | String c rest => negb (is_digit c) && no_digit rest
  end.

(** The reward request failed, or its reply text carries no number. *)
Definition no_numeric_content (json : option JSON) : Prop :=
  json = None ∨
  match callGeminiForText json with
  | JStr reply => no_digit reply = true
  | _ => True
  end.

(** ** A worked scenario: report, claim, proof, monitor decision *)

Module Scenario.

Definition profile (name role : string) : Doc :=
  <["name" := VStr name]>
  (<["role" := VStr role]>
   (<["totalReporterPoints" := VNum 0]>
    {[ "totalPickerPoints" := VNum 0 ]})).

Definition rita : Session :=
  mkSession (Some "r1") (Some (profile "Rita" "reporter")) "Rita" "reporter".
Definition pat : Session :=
  mkSession (Some "p1") (Some (profile "Pat" "picker")) "Pat" "picker".
Definition paul : Session :=
  mkSession (Some "p2") (Some (profile "Paul" "picker")) "Paul" "picker".
Definition mona : Session :=
  mkSession (Some "m1") (Some (profile "Mona" "monitor")) "Mona" "monitor".

Definition db_start : Store :=
  mkStore
    (<["r1" := profile "Rita" "reporter"]>
     (<["p1" := profile "Pat" "picker"]>
      (<["p2" := profile "Paul" "picker"]>
       {[ "m1" := profile "Mona" "monitor" ]})))
    ∅.

Definition here : Value := VLoc "30.0512" "78.0331".

(** The advisory reply: well-formed, but its text names no number. *)
Definition vague_reply : option JSON :=
  Some (JObj [("candidates",
    JArr [JObj [("content",
      JObj [("parts", JArr [JObj [("text", JStr "It depends.")]])])]])]).

Definition submit_env : SubmitEnv :=
  mkSubmitEnv (Ok "photo") 1 vague_reply "rep1" 100 None.

Definition item (db : Store) : Doc :=
  snapshot "rep1" (default ∅ (reports db !! "rep1")).

Definition db_reported : Store :=
  (handleReportSubmission submit_env rita db_start here).1.
Definition db_claimed : Store :=
  (handleClaimReport None pat db_reported "rep1").1.
Definition db_pending : Store :=
  (handleSubmitProof None 120 pat db_claimed "rep1" (Ok "proof") here).1.
Definition db_rejected : Store :=
  (handleFinalApproval None 130 mona db_pending (item db_pending) "reject").1.

(** A profile that already holds points, and its owner back on the setup
    form. *)
Definition db_veteran : Store :=
  mkStore {[ "r1" := <["totalReporterPoints" := VNum 5]> (profile "Rita" "reporter") ]} ∅.
Definition rita_again : Session := mkSession (Some "r1") None "" "".

(** The scenario as a sequence of handler calls. *)
Definition events : list Event :=
  [ ReportSubmission submit_env rita here;
    ClaimReport None pat "rep1";
    ProofSubmission None 120 pat "rep1" (Ok "proof") here;
    FinalApproval None 130 mona (item db_pending) "reject" ].

(** A store in which the picker of the pending report has no profile. *)
Definition db_no_picker : Store :=
  mkStore (delete "p1" (profiles db_pending)) (reports db_pending).


End Scenario.

(** ** The proxy endpoint and its client *)

(** An HTTP reply: the status and the parsed body ([None] when the body is
    not JSON, so that reading it as JSON throws). *)
Record HttpResponse : Type := mkResponse {
  http_status : Z;
  http_body : option JSON
}.

Definition error_body (msg : string) : JSON := JObj [("error", JStr msg)].

(** [!key] for the configured API key. *)
Definition no_key (key : option string) : bool :=
  match key with
  | Some k => bool_decide (k = "")
  | None => true
  end.

(** [handler] of the proxy endpoint. [upstream] is the outcome of the fetch
    to the model endpoint ([Err] when it throws). *)
Definition handler (key : option string) (upstream : Res HttpResponse)
    : HttpResponse :=
  if no_key key then
    mkResponse 500 (Some (error_body "No Gemini API key configured."))
  else
    match upstream with
    | Err _ => mkResponse 500 (Some (error_body "Proxy failed"))
    | Ok response =>
        match http_body response with
        | None => mkResponse 500 (Some (error_body "Proxy failed"))
        | Some data => mkResponse (http_status response) (Some data)
        end
    end.

(** [res.ok] *)
Definition response_ok (r : HttpResponse) : bool :=
  (200 <=? http_status r) && (http_status r <=? 299).

(** [callGeminiProxy], from the outcome of the fetch to the proxy: null on a
    network error, on a status that is not ok and on a body that is not
    JSON. *)
Definition callGeminiProxy (reply : Res HttpResponse) : option JSON :=
  match reply with
  | Err _ => None
  | Ok res => if response_ok res then http_body res else None
  end.

(** The reply shape the client reads its text from:
    [{candidates: [{content: {parts: [{text}]}}]}]. *)
Definition gemini_reply (text : JSON) : JSON :=
  JObj [("candidates",
    JArr [JObj [("content", JObj [("parts", JArr [JObj [("text", text)]])])]])].

(** ** Profile listener and top-level routing *)

(** [userProfile]: undefined while loading, null when setup is required, the
    profile data when ready. *)
Inductive ProfileState : Type :=
| ProfileLoading
| ProfileAbsent
| ProfileReady (data : Doc).

Record AppState : Type := mkAppState {
  appProfile : ProfileState;
  appUserName : option Value;
  appUserRole : option Value;
  view : string
}.

(** What the profile listener is called with: a snapshot of an existing or a
    missing document, or an error with its code. *)
Inductive ProfileEvent : Type :=
| SnapshotExists (data : Doc)
| SnapshotMissing
| SnapshotError (code : string).

Definition onProfileSnapshot (st : AppState) (ev : ProfileEvent) : AppState :=
  match ev with
  | SnapshotExists profileData =>
      mkAppState (ProfileReady profileData) (profileData !! "name")
        (profileData !! "role")
        (if decide (view st = "setup") then "reports" else view st)
  | SnapshotMissing =>
      mkAppState ProfileAbsent (appUserName st) (appUserRole st) "setup"
  | SnapshotError code =>
      if decide (code = "permission-denied") then
        mkAppState ProfileAbsent (appUserName st) (appUserRole st) "setup"
      else
        mkAppState ProfileAbsent (appUserName st) (appUserRole st) "setup"
  end.

Inductive Screen : Type := ConnectingScreen | SetupScreen | MainScreen.

(** The return of [App]. *)
Definition screen (isSystemReady : bool) (st : AppState) : Screen :=
  if negb isSystemReady then ConnectingScreen
  else if bool_decide (view st = "setup")
          || match appProfile st with ProfileAbsent => true | _ => false end
  then SetupScreen
  else MainScreen.

(** ** Fields and states the handlers write *)

(** The fields named by the updates of the claim, proof and decision
    handlers. *)
Definition written_fields : list string :=
  [ "status"; "pickerId"; "pickerName"; "cleanupPhotoUrl"; "pickerLocation";
    "proofSubmittedAt"; "monitorId"; "monitorName"; "completedAt";
    "reporterRewardIssued"; "pickerRewardIssued"; "monitorMessage" ].

Definition statuses : list string :=
  [ "Reported"; "Claimed"; "Pending Review"; "Completed"; "Rejected" ].

(** Every stored report carries one of the five states. *)
Definition statuses_valid (db : Store) : Prop :=
  ∀ rid d, reports db !! rid = Some d →
    ∃ st, d !! "status" = Some (VStr st) ∧ st ∈ statuses.

(** The report a submission event writes, if it writes one. *)
Definition created_report (e : Event) : option string :=
  match e with
  | ReportSubmission env _ _ => Some (newId env)
  | _ => None
  end.

(** No stored report has a field named id (the handlers never write one). *)
Definition no_id_field (db : Store) : Prop :=
  ∀ rid d, reports db !! rid = Some d → d !! "id" = None.

(** * Properties *)

(** ** The scenario of the specification *)

(** Report, claim, proof and rejection move the report through Reported,
    Claimed, Pending Review and Rejected; the claim records the picker and the
    proof its photo. *)
Example scenario_statuses :
  let status db := reports db !! "rep1" ≫= (.!! "status") in
  status Scenario.db_reported = Some (VStr "Reported")
  ∧ status Scenario.db_claimed = Some (VStr "Claimed")
  ∧ reports Scenario.db_claimed !! "rep1" ≫= (.!! "pickerId") = Some (VStr "p1")
  ∧ status Scenario.db_pending = Some (VStr "Pending Review")
  ∧ reports Scenario.db_pending !! "rep1" ≫= (.!! "cleanupPhotoUrl")
    = Some (VStr "proof")
  ∧ status Scenario.db_rejected = Some (VStr "Rejected")
  ∧ run true Scenario.db_start Scenario.events = Scenario.db_rejected.
Proof. cbv zeta. repeat split; vm_compute; reflexivity. Qed.

(** ** Store and transaction lemmas *)

Lemma applyUpdate_profiles_report db rid f db' :
  applyUpdate db (ReportRef rid) f = Some db' → profiles db' = profiles db.
Proof.
  unfold applyUpdate; simpl. destruct (reports db !! rid); [|done].
  by intros [= <-].
Qed.

Lemma applyUpdate_reports_profile db uid f db' :
  applyUpdate db (ProfileRef uid) f = Some db' → reports db' = reports db.
Proof.
  unfold applyUpdate; simpl. destruct (profiles db !! uid); [|done].
  by intros [= <-].
Qed.

Lemma updateDoc_profiles fault db rid f db' :
  updateDoc fault db (ReportRef rid) f = Ok db' → profiles db' = profiles db.
Proof.
  unfold updateDoc. destruct fault; [done|].
  destruct (applyUpdate db (ReportRef rid) f) eqn:E; [|done].
  intros [= <-]. by eapply applyUpdate_profiles_report.
Qed.

(** A rejected transaction leaves the store as it was, whatever the body. *)
Lemma transact_all_or_nothing enforce fault db body db' e al :
  transact enforce fault db body = (db', Some e, al) → db' = db.
Proof.
  unfold transact.
  destruct (run_body enforce db [] [] body) as [ws a|m a]; [|by intros [= <- _ _]].
  destruct fault; [by intros [= <- _ _]|].
  destruct (commit db ws); [done|by intros [= <- _ _]].
Qed.

(** Whenever [handleFinalApproval] reports "Approval Failed", nothing was
    written: neither the report nor a profile. *)
Lemma approval_failure_no_effect enforce fault now s db report ty e :
  mkAlert "Approval Failed" e error
    ∈ (finalApprovalWith enforce fault now s db report ty).2 →
  (finalApprovalWith enforce fault now s db report ty).1 = db.
Proof.
  unfold finalApprovalWith.
  destruct (negb _ || _); [done|].
  destruct (transact _ _ _ _) as [[db' [e'|]] al] eqn:E; simpl.
  - intros _. by eapply transact_all_or_nothing.
  - intros Hal. exfalso. revert E Hal. unfold transact, approval_body.
    case_decide; destruct enforce; cbn [run_body app]; try done;
      (destruct fault; [done|]); (destruct (commit _ _); [|done]);
      intros [= _ <-]; rewrite list_elem_of_In; simpl; intros [[=]|[]].
Qed.

(** The calls the approve branch makes on the transaction, in order. *)
Lemma approval_ops s now report db :
  tx_ops db (approval_body s now report "approve") =
  [ OpWrite (reportRef report) (completed_fields s now report);
    OpRead (reporterProfileRef report);
    OpWrite (reporterProfileRef report)
      {[ "totalReporterPoints" :=
           js_add (current_points (getDoc db (reporterProfileRef report))
                     "totalReporterPoints") (rewardReporter report) ]};
    OpRead (pickerProfileRef report);
    OpWrite (pickerProfileRef report)
      {[ "totalPickerPoints" :=
           js_add (current_points (getDoc db (pickerProfileRef report))
                     "totalPickerPoints") (rewardPicker report) ]} ].
Proof. unfold approval_body. by rewrite decide_True. Qed.

(** The reject branch writes one document and reads none. *)
Lemma rejection_ops s now report db ty :
  ty ≠ "approve" →
  tx_ops db (approval_body s now report ty) =
  [ OpWrite (reportRef report) (rejected_fields s) ].
Proof. intros H. unfold approval_body. by rewrite decide_False. Qed.

(** ** Approval *)

(** C1 (as the code behaves): the approve branch calls [transaction.update] on
    the report before its two [transaction.get] calls, so the store rejects the
    transaction at the first read; for a monitor the approval of any report
    ends in "Approval Failed" and the store is left as it was. The report is
    not completed and no points are added. *)
Theorem approve_rejected_by_store fault now s db report :
  userRole s = "monitor" →
  is_Some (userProfile s) →
  handleFinalApproval fault now s db report "approve"
  = (db, [mkAlert "Approval Failed" err_reads_first error]).
Proof.
  intros Hrole [p Hp].
  unfold handleFinalApproval, finalApprovalWith, no_profile.
  rewrite Hp, bool_decide_true by done.
  unfold transact, approval_body. rewrite decide_True by done. reflexivity.
Qed.

Lemma approve_rejected_by_store_witness :
  let db := Scenario.db_pending in
  db.(reports) !! "rep1" ≫= (.!! "status") = Some (VStr "Pending Review")
  ∧ handleFinalApproval None 130 Scenario.mona db (Scenario.item db) "approve"
    = (db, [mkAlert "Approval Failed" err_reads_first error]).
Proof.
  split; [vm_compute; reflexivity|].
  apply approve_rejected_by_store; [reflexivity|eexists; reflexivity].
Defined.

(** C2: a rejected settlement changes no document (lemmas
    [transact_all_or_nothing] and [approval_failure_no_effect]), but the approve branch does not keep the
    store's contract: its first call is a write and two reads follow it. *)
Theorem approve_body_reads_after_write s now report db :
  reads_first (tx_ops db (approval_body s now report "approve")) = false
  ∧ head (tx_ops db (approval_body s now report "approve"))
    = Some (OpWrite (reportRef report) (completed_fields s now report))
  ∧ OpRead (reporterProfileRef report)
      ∈ tail (tx_ops db (approval_body s now report "approve"))
  ∧ OpRead (pickerProfileRef report)
      ∈ tail (tx_ops db (approval_body s now report "approve")).
Proof.
  rewrite approval_ops. cbn [head tail].
  split; [reflexivity|]. split; [reflexivity|].
  split; apply list_elem_of_In; simpl; tauto.
Qed.

(** ** Rejection *)

Lemma reportRef_id report rid :
  report !! "id" = Some (VStr rid) → reportRef report = ReportRef rid.
Proof. unfold reportRef. by intros ->. Qed.

Lemma rejected_fields_other s field :
  field ∉ ["status"; "pickerId"; "pickerName"; "monitorId"; "monitorName";
           "monitorMessage"] →
  rejected_fields s !! field = None.
Proof.
  intros H. unfold rejected_fields.
  rewrite !lookup_insert_ne, lookup_singleton_ne; [done|..];
    intros <-; apply H; apply list_elem_of_In; simpl; tauto.
Qed.

(** What a monitor's rejection does to the store. *)
Lemma reject_result now s db report rid d :
  userRole s = "monitor" →
  is_Some (userProfile s) →
  report !! "id" = Some (VStr rid) →
  reports db !! rid = Some d →
  handleFinalApproval None now s db report "reject"
  = (mkStore (profiles db) (<[rid := rejected_fields s ∪ d]> (reports db)),
     [mkAlert "Report Rejected" "Proof rejected. Report re-opened." error]).
Proof.
  intros Hrole [p Hp] Hid Hd.
  unfold handleFinalApproval, finalApprovalWith, no_profile.
  rewrite Hp, bool_decide_true by done.
  unfold transact, approval_body. rewrite decide_False by done.
  rewrite (reportRef_id _ _ Hid).
  cbn [run_body app commit negb orb]. unfold applyUpdate. simpl. by rewrite Hd.
Qed.

(** C5: for a report awaiting review, a monitor's rejection is one update of
    the report document inside the transaction: status becomes Rejected,
    pickerId and pickerName become null, monitorMessage is set, every other
    report and every profile (so every point total) stays as it was. *)
Theorem reject_single_document_update now s db report rid d :
  userRole s = "monitor" →
  is_Some (userProfile s) →
  report !! "id" = Some (VStr rid) →
  reports db !! rid = Some d →
  d !! "status" = Some (VStr "Pending Review") →
  ∃ d',
    (handleFinalApproval None now s db report "reject").1
      = mkStore (profiles db) (<[rid := d']> (reports db))
    ∧ d' !! "status" = Some (VStr "Rejected")
    ∧ d' !! "pickerId" = Some VNull
    ∧ d' !! "pickerName" = Some VNull
    ∧ d' !! "monitorMessage" = Some (VStr "Proof rejected. Please resubmit.")
    ∧ tx_ops db (approval_body s now report "reject")
      = [OpWrite (ReportRef rid) (rejected_fields s)].
Proof.
  intros Hrole Hp Hid Hd _. exists (rejected_fields s ∪ d).
  rewrite (reject_result now s db report rid d) by done.
  rewrite rejection_ops, (reportRef_id _ _ Hid) by done.
  repeat split; apply lookup_union_Some_l; by unfold rejected_fields; simplify_map_eq.
Qed.

Lemma reject_single_document_update_witness :
  ∃ d',
    (handleFinalApproval None 130 Scenario.mona Scenario.db_pending
       (Scenario.item Scenario.db_pending) "reject").1
      = mkStore (profiles Scenario.db_pending)
          (<["rep1" := d']> (reports Scenario.db_pending))
    ∧ d' !! "status" = Some (VStr "Rejected")
    ∧ d' !! "pickerId" = Some VNull
    ∧ d' !! "pickerName" = Some VNull
    ∧ d' !! "monitorMessage" = Some (VStr "Proof rejected. Please resubmit.")
    ∧ tx_ops Scenario.db_pending
        (approval_body Scenario.mona 130 (Scenario.item Scenario.db_pending) "reject")
      = [OpWrite (ReportRef "rep1") (rejected_fields Scenario.mona)].
Proof.
  apply (reject_single_document_update 130 Scenario.mona Scenario.db_pending
           (Scenario.item Scenario.db_pending) "rep1"
           (default ∅ (reports Scenario.db_pending !! "rep1")));
    [reflexivity | eexists; reflexivity | vm_compute; reflexivity
    | vm_compute; reflexivity | vm_compute; reflexivity].
Defined.

(** C9: rejection clears the picker assignment (pickerId and pickerName
    become null, whatever they were) and leaves every field of the report
    other than status, pickerId, pickerName, monitorId, monitorName and
    monitorMessage as it was; in particular the proof photo stays in
    cleanupPhotoUrl. *)
Theorem reject_frame now s db report rid d :
  userRole s = "monitor" →
  is_Some (userProfile s) →
  report !! "id" = Some (VStr rid) →
  reports db !! rid = Some d →
  ∃ d',
    reports (handleFinalApproval None now s db report "reject").1 !! rid = Some d'
    ∧ d' !! "pickerId" = Some VNull
    ∧ d' !! "pickerName" = Some VNull
    ∧ d' !! "status" = Some (VStr "Rejected")
    ∧ (∀ field,
         field ∉ ["status"; "pickerId"; "pickerName"; "monitorId"; "monitorName";
                  "monitorMessage"] →
         d' !! field = d !! field)
    ∧ d' !! "cleanupPhotoUrl" = d !! "cleanupPhotoUrl".
Proof.
  intros Hrole Hp Hid Hd. exists (rejected_fields s ∪ d).
  rewrite (reject_result now s db report rid d) by done. simpl.
  split; [by rewrite lookup_insert_eq|].
  split; [apply lookup_union_Some_l; by unfold rejected_fields; simplify_map_eq|].
  split; [apply lookup_union_Some_l; by unfold rejected_fields; simplify_map_eq|].
  split; [apply lookup_union_Some_l; by unfold rejected_fields; simplify_map_eq|].
  assert (∀ field,
            field ∉ ["status"; "pickerId"; "pickerName"; "monitorId"; "monitorName";
                     "monitorMessage"] →
            (rejected_fields s ∪ d) !! field = d !! field) as Hframe.
  { intros field Hf. apply lookup_union_r. by apply rejected_fields_other. }
  split; [exact Hframe|]. apply Hframe.
  rewrite list_elem_of_In. simpl. intros H. decompose [or] H; done.
Qed.

Lemma reject_frame_witness :
  ∃ d',
    reports (handleFinalApproval None 130 Scenario.mona Scenario.db_pending
               (Scenario.item Scenario.db_pending) "reject").1 !! "rep1" = Some d'
    ∧ d' !! "pickerId" = Some VNull
    ∧ d' !! "pickerName" = Some VNull
    ∧ d' !! "status" = Some (VStr "Rejected")
    ∧ (∀ field,
         field ∉ ["status"; "pickerId"; "pickerName"; "monitorId"; "monitorName";
                  "monitorMessage"] →
         d' !! field = default ∅ (reports Scenario.db_pending !! "rep1") !! field)
    ∧ d' !! "cleanupPhotoUrl"
      = default ∅ (reports Scenario.db_pending !! "rep1") !! "cleanupPhotoUrl".
Proof.
  apply (reject_frame 130 Scenario.mona Scenario.db_pending
           (Scenario.item Scenario.db_pending) "rep1");
    [reflexivity | eexists; reflexivity | vm_compute; reflexivity
    | vm_compute; reflexivity].
Defined.

(** ** The transition table and the controls *)

Lemma has_status_true report st :
  has_status report st = true ↔ report !! "status" = Some (VStr st).
Proof. unfold has_status. apply bool_decide_eq_true. Qed.

(** When the session is not ready the claim handler writes nothing and says
    so. *)
Lemma claim_not_ready fault s db rid :
  no_user s || no_profile s = true →
  handleClaimReport fault s db rid
  = (db, [mkAlert "Claim Failed" "Profile not ready." error]).
Proof. unfold handleClaimReport. by intros ->. Qed.

(** A claim that reaches the handler with a ready session re-assigns the
    report whatever its state. *)
Lemma claim_result s db rid d :
  no_user s || no_profile s = false →
  reports db !! rid = Some d →
  handleClaimReport None s db rid
  = (mkStore (profiles db)
       (<[rid := (<["status" := VStr "Claimed"]>
                  (<["pickerId" := id_value (userId s)]>
                   {[ "pickerName" := VStr (userName s) ]})) ∪ d]> (reports db)),
     [mkAlert "Report Claimed!" "Proceed to cleanup." success]).
Proof.
  intros Hr Hd. unfold handleClaimReport, updateDoc, applyUpdate. rewrite Hr.
  simpl. by rewrite Hd.
Qed.

Lemma proof_not_ready fault now s db rid r location :
  no_user s || no_profile s = true →
  handleSubmitProof fault now s db rid r location
  = (db, [mkAlert "Submission Failed" "Profile not ready." error]).
Proof. unfold handleSubmitProof. by intros ->. Qed.

Lemma proof_result now s db rid d img location :
  no_user s || no_profile s = false →
  reports db !! rid = Some d →
  handleSubmitProof None now s db rid (Ok img) location
  = (mkStore (profiles db)
       (<[rid := (<["status" := VStr "Pending Review"]>
                  (<["cleanupPhotoUrl" := VStr img]>
                   (<["pickerLocation" := location]>
                    {[ "proofSubmittedAt" := VTime now ]}))) ∪ d]> (reports db)),
     [mkAlert "Proof Submitted!" "Pending monitor review." info]).
Proof.
  intros Hr Hd. unfold handleSubmitProof, updateDoc, applyUpdate. rewrite Hr.
  simpl. by rewrite Hd.
Qed.

Lemma decision_not_monitor fault now s db report ty :
  userRole s ≠ "monitor" ∨ no_profile s = true →
  handleFinalApproval fault now s db report ty = (db, []).
Proof.
  unfold handleFinalApproval, finalApprovalWith. intros [H|H].
  - by rewrite bool_decide_false.
  - rewrite H. by rewrite orb_true_r.
Qed.

(** C3 (as the code has it): the table's preconditions are the conditions
    under which [ReportItem] renders the control that starts each transition,
    judged on the report as shown (the proof form itself stays rendered while
    it is open). The handlers check the session only: a claim or a proof
    submission without a user and profile leaves the store unchanged and
    raises an error, a decision by a user who is not a monitor with a profile
    leaves it unchanged and raises nothing. They do not look at the stored
    report: a claim or proof submission that reaches its handler with a ready
    session on an existing report succeeds and sets the status, whatever the
    report's state and the caller's role. *)
Theorem table_kept_by_controls_only s report showProof :
  (∀ t, control (ReportItem s report showProof) t = true
        ↔ table_precondition s report t)
  ∧ proofForm (ReportItem s report showProof) = showProof
  ∧ (no_user s || no_profile s = true →
     ∀ fault now db rid r location,
       handleClaimReport fault s db rid
       = (db, [mkAlert "Claim Failed" "Profile not ready." error])
       ∧ handleSubmitProof fault now s db rid r location
         = (db, [mkAlert "Submission Failed" "Profile not ready." error]))
  ∧ (userRole s ≠ "monitor" ∨ no_profile s = true →
     ∀ fault now db ty, handleFinalApproval fault now s db report ty = (db, []))
  ∧ (no_user s || no_profile s = false →
     ∀ now db rid d img location,
       reports db !! rid = Some d →
       (∃ d', handleClaimReport None s db rid
              = (mkStore (profiles db) (<[rid := d']> (reports db)),
                 [mkAlert "Report Claimed!" "Proceed to cleanup." success])
              ∧ d' !! "status" = Some (VStr "Claimed")
              ∧ d' !! "pickerId" = Some (id_value (userId s)))
       ∧ (∃ d', handleSubmitProof None now s db rid (Ok img) location
                = (mkStore (profiles db) (<[rid := d']> (reports db)),
                   [mkAlert "Proof Submitted!" "Pending monitor review." info])
                ∧ d' !! "status" = Some (VStr "Pending Review"))).
Proof.
  split; [|split; [reflexivity|split; [|split]]].
  - intros t. destruct t; unfold ReportItem, table_precondition;
      cbn [control claimJob submitProof approveReject];
      rewrite ?andb_true_iff, ?has_status_true, ?bool_decide_eq_true, ?negb_true_iff;
      tauto.
  - intros Hn fault now db rid r location.
    split; [by apply claim_not_ready|by apply proof_not_ready].
  - intros Hn fault now db ty. by apply decision_not_monitor.
  - intros Hr now db rid d img location Hd. split.
    + eexists. split; [by apply claim_result|].
      split; apply lookup_union_Some_l; by simplify_map_eq.
    + eexists. split; [by apply proof_result|].
      apply lookup_union_Some_l; by simplify_map_eq.
Qed.

Lemma table_kept_by_controls_only_witness :
  (control (ReportItem Scenario.paul (Scenario.item Scenario.db_reported) false) TClaim
   = true
   ↔ table_precondition Scenario.paul (Scenario.item Scenario.db_reported) TClaim)
  ∧ handleFinalApproval None 130 Scenario.pat Scenario.db_pending
      (Scenario.item Scenario.db_pending) "reject"
    = (Scenario.db_pending, [])
  ∧ ∃ d', handleClaimReport None Scenario.paul Scenario.db_claimed "rep1"
          = (mkStore (profiles Scenario.db_claimed)
               (<["rep1" := d']> (reports Scenario.db_claimed)),
             [mkAlert "Report Claimed!" "Proceed to cleanup." success])
          ∧ d' !! "status" = Some (VStr "Claimed")
          ∧ d' !! "pickerId" = Some (VStr "p2").
Proof.
  split; [|split].
  - exact (proj1 (table_kept_by_controls_only Scenario.paul
                    (Scenario.item Scenario.db_reported) false) TClaim).
  - apply (table_kept_by_controls_only Scenario.pat
             (Scenario.item Scenario.db_pending) false).
    left. discriminate.
  - assert (reports Scenario.db_claimed !! "rep1"
            = Some (default ∅ (reports Scenario.db_claimed !! "rep1"))) as Hd
      by (vm_compute; reflexivity).
    exact (proj1 ((proj2 (proj2 (proj2 (proj2
             (table_kept_by_controls_only Scenario.paul
                (Scenario.item Scenario.db_reported) false)))))
             eq_refl 0 Scenario.db_claimed "rep1" _ "" VNull Hd)).
Defined.

(** C3, refuted as stated: a second picker whose list still shows the report
    as Reported presses "Claim Job" after the first picker's claim went
    through. The stored report is Claimed, so the claim is outside the table;
    the handler nevertheless re-assigns the report to the second picker and
    announces success. *)
Lemma stale_claim_overwrites :
  let shown := Scenario.item Scenario.db_reported in
  let db := Scenario.db_claimed in
  let res := handleClaimReport None Scenario.paul db "rep1" in
  claimJob (ReportItem Scenario.paul shown false) = true
  ∧ ¬ table_precondition Scenario.paul (Scenario.item db) TClaim
  ∧ reports db !! "rep1" ≫= (.!! "pickerId") = Some (VStr "p1")
  ∧ reports res.1 !! "rep1" ≫= (.!! "pickerId") = Some (VStr "p2")
  ∧ res.1 ≠ db
  ∧ existsb is_failure res.2 = false.
Proof.
  cbv zeta. split; [vm_compute; reflexivity|].
  split; [intros [_ Hst]; vm_compute in Hst; discriminate Hst|].
  split; [vm_compute; reflexivity|].
  split; [vm_compute; reflexivity|].
  split; [|vm_compute; reflexivity].
  intros H.
  apply (f_equal (λ x, reports x !! "rep1" ≫= (.!! "pickerId"))) in H.
  vm_compute in H. discriminate H.
Qed.

(** ** Re-claiming after a rejection *)

(** The list item of a rejected report shows no "Claim Job" control. *)
Lemma rejected_item_has_no_claim_control s report showProof :
  report !! "status" = Some (VStr "Rejected") →
  claimJob (ReportItem s report showProof) = false.
Proof.
  intros Hst. unfold ReportItem, has_status. cbn [claimJob]. rewrite Hst.
  rewrite (bool_decide_false (Some (VStr "Rejected") = Some (VStr "Reported"))) by done.
  apply andb_false_r.
Qed.

(** C7: a claim on a rejected report (status Rejected, pickerId null) by a
    picker with a ready session succeeds: the report becomes Claimed with that
    picker's id and name, and the success notification is raised. *)
Theorem rejected_report_can_be_claimed s db rid d :
  no_user s || no_profile s = false →
  reports db !! rid = Some d →
  d !! "status" = Some (VStr "Rejected") →
  d !! "pickerId" = Some VNull →
  ∃ d',
    handleClaimReport None s db rid
    = (mkStore (profiles db) (<[rid := d']> (reports db)),
       [mkAlert "Report Claimed!" "Proceed to cleanup." success])
    ∧ d' !! "status" = Some (VStr "Claimed")
    ∧ d' !! "pickerId" = Some (id_value (userId s))
    ∧ d' !! "pickerName" = Some (VStr (userName s)).
Proof.
  intros Hr Hd _ _. eexists. split; [by apply claim_result|].
  repeat split; apply lookup_union_Some_l; by simplify_map_eq.
Qed.

Lemma rejected_report_can_be_claimed_witness :
  ∃ d',
    handleClaimReport None Scenario.paul Scenario.db_rejected "rep1"
    = (mkStore (profiles Scenario.db_rejected)
         (<["rep1" := d']> (reports Scenario.db_rejected)),
       [mkAlert "Report Claimed!" "Proceed to cleanup." success])
    ∧ d' !! "status" = Some (VStr "Claimed")
    ∧ d' !! "pickerId" = Some (VStr "p2")
    ∧ d' !! "pickerName" = Some (VStr "Paul").
Proof.
  apply (rejected_report_can_be_claimed Scenario.paul Scenario.db_rejected "rep1"
           (default ∅ (reports Scenario.db_rejected !! "rep1")));
    [reflexivity | vm_compute; reflexivity | vm_compute; reflexivity
    | vm_compute; reflexivity].
Defined.

(** ** Rewards *)

Lemma to_double_small n : Z.abs n < 2 ^ 53 → to_double n = VNum n.
Proof.
  intros Hn. unfold to_double, round53.
  destruct (Z.ltb_spec (Z.abs n) (2 ^ 53)); [|lia].
  assert (2 ^ 53 < 2 ^ 1024) by (apply Z.pow_lt_mono_r; lia).
  destruct (Z.ltb_spec (Z.abs n) (2 ^ 1024)); [|lia].
  f_equal. destruct (Z.sgn_spec n) as [[? ->]|[[? ->]|[? ->]]]; lia.
Qed.




(** ** Reward suggestion fallback *)

Lemma match_digits_none s : no_digit s = true → match_digits s = None.
Proof.
  induction s as [|c rest IH]; [done|]. simpl.
  destruct (is_digit c); [done|]. exact IH.
Qed.

Lemma failed_request_text : callGeminiForText None = JStr "".
Proof. reflexivity. Qed.

Lemma resolveBaseReward_fallback json :
  no_numeric_content json → resolveBaseReward json = VNum 10.
Proof.
  unfold no_numeric_content, resolveBaseReward, getRewardSuggestionRemote.
  intros [->|H]; [reflexivity|].
  destruct (callGeminiForText json); try reflexivity.
  by rewrite match_digits_none.
Qed.

(** C8: when the reward request fails or its reply carries no number, the new
    report is stored with baseReward 10, the only notification is the success
    message, and the submission completes. *)
Theorem reward_fallback env s db location img :
  no_numeric_content (proxyReply env) →
  no_user s = false →
  no_profile s = false →
  resized env = Ok img →
  storeFault env = None →
  ∃ doc msg,
    handleReportSubmission env s db location
    = (mkStore (profiles db) (<[newId env := doc]> (reports db)),
       [mkAlert "Report Submitted!" msg success])
    ∧ doc !! "baseReward" = Some (VNum 10)
    ∧ doc !! "status" = Some (VStr "Reported")
    ∧ existsb is_failure (handleReportSubmission env s db location).2 = false.
Proof.
  intros Hn Hu Hp Hr Hf.
  unfold handleReportSubmission, addDoc, setDoc.
  rewrite Hu, Hp, Hr, Hf. cbn [orb putDoc].
  eexists _, _. split; [reflexivity|].
  unfold newReport. destruct (classifyWasteLocal (pick env)) as [c pr].
  rewrite (resolveBaseReward_fallback _ Hn).
  split; [by simplify_map_eq|]. split; [by simplify_map_eq|]. reflexivity.
Qed.

Lemma reward_fallback_witness :
  ∃ doc msg,
    handleReportSubmission Scenario.submit_env Scenario.rita Scenario.db_start
      Scenario.here
    = (mkStore (profiles Scenario.db_start)
         (<["rep1" := doc]> (reports Scenario.db_start)),
       [mkAlert "Report Submitted!" msg success])
    ∧ doc !! "baseReward" = Some (VNum 10)
    ∧ doc !! "status" = Some (VStr "Reported")
    ∧ existsb is_failure
        (handleReportSubmission Scenario.submit_env Scenario.rita Scenario.db_start
           Scenario.here).2 = false.
Proof.
  apply (reward_fallback Scenario.submit_env Scenario.rita Scenario.db_start
           Scenario.here "photo");
    [right; vm_compute; reflexivity | reflexivity | reflexivity | reflexivity
    | reflexivity].
Defined.

(** A reply that is not text makes the helper throw; the submission catches
    it and keeps the default. *)
Lemma non_text_reply_fallback json :
  (∀ reply, callGeminiForText json ≠ JStr reply) → resolveBaseReward json = VNum 10.
Proof.
  unfold resolveBaseReward, getRewardSuggestionRemote. intros H.
  destruct (callGeminiForText json) as [| | |reply| |]; try reflexivity.
  by destruct (H reply).
Qed.

(** ** Missing profiles *)

(** The total the settlement starts from is 0 for a missing document, a
    missing field and a stored 0. *)
Lemma current_points_default snap field :
  snap = None ∨ snap ≫= (.!! field) = None ∨ snap ≫= (.!! field) = Some (VNum 0) →
  current_points snap field = VNum 0.
Proof.
  unfold current_points. intros [->|[H|H]]; [done|..];
    destruct snap as [d|]; simpl in *; try done; by rewrite H.
Qed.

Lemma applyUpdate_profile_None db uid f :
  profiles db !! uid = None → applyUpdate db (ProfileRef uid) f = None.
Proof. unfold applyUpdate. simpl. by intros ->. Qed.

Lemma applyUpdate_profile_Some db uid f d :
  profiles db !! uid = Some d →
  applyUpdate db (ProfileRef uid) f
  = Some (mkStore (<[uid := f ∪ d]> (profiles db)) (reports db)).
Proof. unfold applyUpdate. simpl. by intros ->. Qed.

(** A settlement whose reporter or picker profile is missing cannot commit. *)
Lemma commit_missing_profile db rid f1 a f2 b f3 :
  profiles db !! a = None ∨ profiles db !! b = None →
  commit db [(ReportRef rid, f1); (ProfileRef a, f2); (ProfileRef b, f3)] = None.
Proof.
  intros Hmiss. cbn [commit].
  destruct (applyUpdate db (ReportRef rid) f1) as [db1|] eqn:E1; [|done].
  apply applyUpdate_profiles_report in E1.
  destruct (profiles db !! a) as [d|] eqn:Ea.
  - rewrite (applyUpdate_profile_Some db1 a f2 d) by congruence.
    destruct Hmiss as [Hm|Hm]; [done|].
    rewrite applyUpdate_profile_None; [done|]. simpl.
    rewrite lookup_insert_ne by congruence. congruence.
  - rewrite applyUpdate_profile_None by congruence. done.
Qed.

Local Ltac approval_failed := eexists; split; reflexivity.

(** C10 (as the code behaves): an approval that meets a missing reporter or
    picker profile fails, and would fail even on a store that tolerated reads
    after writes: [transaction.update] needs the document to exist, so the
    commit is refused. The store is left as it was and the monitor is told
    "Approval Failed". *)
Theorem approve_missing_profile_fails enforce fault now s db report :
  userRole s = "monitor" →
  is_Some (userProfile s) →
  getDoc db (reporterProfileRef report) = None
  ∨ getDoc db (pickerProfileRef report) = None →
  ∃ e, (finalApprovalWith enforce fault now s db report "approve").1 = db
       ∧ last (finalApprovalWith enforce fault now s db report "approve").2
         = Some (mkAlert "Approval Failed" e error).
Proof.
  intros Hrole [p Hp] Hmiss.
  unfold finalApprovalWith, no_profile.
  rewrite Hp, bool_decide_true by done. cbn [negb orb].
  unfold transact, approval_body. rewrite decide_True by done.
  destruct enforce; cbn [run_body app]; [approval_failed|].
  destruct fault as [e|]; [eexists; split; [reflexivity|apply last_snoc]|].
  unfold reportRef, reporterProfileRef, pickerProfileRef in *.
  rewrite commit_missing_profile by exact Hmiss. approval_failed.
Qed.

Lemma approve_missing_profile_fails_witness :
  let db := Scenario.db_no_picker in
  let report := Scenario.item Scenario.db_pending in
  getDoc db (pickerProfileRef report) = None
  ∧ ∃ e, (finalApprovalWith false None 130 Scenario.mona db report "approve").1 = db
         ∧ last (finalApprovalWith false None 130 Scenario.mona db report "approve").2
           = Some (mkAlert "Approval Failed" e error).
Proof.
  split; [vm_compute; reflexivity|].
  apply approve_missing_profile_fails;
    [reflexivity | eexists; reflexivity | right; vm_compute; reflexivity].
Defined.

(** ** Point totals over sequences of operations *)

(** Report creation, claim, proof submission and rejection write to the
    reports collection only. *)
Lemma step_keeps_profiles enforce db e :
  is_approval e = false → is_setup e = false →
  profiles (step enforce db e) = profiles db.
Proof.
  destruct e as [| env s loc | fault s rid | fault now s rid r loc
                 | fault now s report ty]; simpl; intros Ha Hs; [done|..].
  - unfold handleReportSubmission, addDoc, setDoc.
    destruct (no_user s || no_profile s); [done|].
    destruct (resized env); [|done]. by destruct (storeFault env).
  - unfold handleClaimReport. destruct (no_user s || no_profile s); [done|].
    destruct (updateDoc _ _ _ _) eqn:E; [|done]. by eapply updateDoc_profiles.
  - unfold handleSubmitProof. destruct (no_user s || no_profile s); [done|].
    destruct r; [|done].
    destruct (updateDoc _ _ _ _) eqn:E; [|done]. by eapply updateDoc_profiles.
  - apply bool_decide_eq_false in Ha.
    unfold finalApprovalWith. destruct (negb _ || _); [done|].
    destruct (transact _ _ _ _) as [[db' [e|]] al] eqn:E; simpl.
    + by rewrite (transact_all_or_nothing _ _ _ _ _ _ _ E).
    + revert E. unfold transact, approval_body. rewrite decide_False by done.
      cbn [run_body app]. destruct fault; [done|]. cbn [commit].
      unfold reportRef.
      destruct (applyUpdate db _ _) eqn:E1; [|done].
      intros [= <- _]. by eapply applyUpdate_profiles_report.
Qed.

(** On the store as it is, an approval leaves every document as it was. *)
Lemma approve_store_unchanged fault now s db report :
  (finalApprovalWith true fault now s db report "approve").1 = db.
Proof.
  unfold finalApprovalWith. destruct (negb _ || _); [done|].
  unfold transact, approval_body. by rewrite decide_True.
Qed.

Lemma step_other_profile db e uid :
  setup_target e ≠ Some uid →
  profiles (step true db e) !! uid = profiles db !! uid.
Proof.
  intros Ht.
  destruct e as [fault now s name role | | | | fault now s report ty].
  - simpl in *. unfold handleProfileSetup, setDoc.
    destruct (no_user s); [done|]. destruct fault; [done|]. simpl.
    rewrite lookup_insert_ne; [done|congruence].
  - by rewrite step_keeps_profiles.
  - by rewrite step_keeps_profiles.
  - by rewrite step_keeps_profiles.
  - destruct (decide (ty = "approve")) as [->|Hty].
    + simpl. by rewrite approve_store_unchanged.
    + rewrite step_keeps_profiles; [done|by apply bool_decide_eq_false|done].
Qed.

Lemma total_le_points db uid field :
  total_le (points db uid field) (points db uid field).
Proof.
  unfold points, current_points, num_or, to_double.
  repeat case_match; simpl; try lia; try (destruct (_ <? 0); auto);
    by destruct negative; auto.
Qed.

(** C6 (amended): a user's point totals are written by nothing but the
    approval settlement and a profile setup: report creation, claim, proof
    submission and rejection leave every profile as it was. A profile setup
    that goes through writes both totals as 0, whatever the profile held. Over
    any sequence of operations that holds no profile setup for that user, each
    total never decreases, and stays non-negative if it was. *)
Theorem totals_written_by_settlement_and_setup :
  (∀ enforce evs db,
     Forall (λ e, is_approval e = false ∧ is_setup e = false) evs →
     profiles (run enforce db evs) = profiles db)
  ∧ (∀ now s db name role uid,
       setup_target (ProfileSetup None now s name role) = Some uid →
       points (step true db (ProfileSetup None now s name role)) uid
         "totalReporterPoints" = VNum 0
       ∧ points (step true db (ProfileSetup None now s name role)) uid
           "totalPickerPoints" = VNum 0)
  ∧ (∀ evs db uid field,
       Forall (λ e, setup_target e ≠ Some uid) evs →
       total_le (points db uid field) (points (run true db evs) uid field)
       ∧ (total_le (VNum 0) (points db uid field) →
          total_le (VNum 0) (points (run true db evs) uid field))).
Proof.
  split; [|split].
  - intros enforce evs. induction evs as [|e evs IH]; intros db Hall; [done|].
    inversion Hall as [|? ? [Ha Hs] Hrest]; subst. simpl.
    rewrite IH by done. by apply step_keeps_profiles.
  - intros now s db name role uid. simpl. unfold handleProfileSetup, setDoc.
    destruct (no_user s); [done|]. intros [= <-]. unfold points. simpl.
    rewrite lookup_insert_eq. unfold current_points. by simplify_map_eq.
  - intros evs db uid field Hall.
    assert (profiles (run true db evs) !! uid = profiles db !! uid) as Heq.
    { revert db. induction evs as [|e evs IH]; intros db; [done|].
      inversion Hall as [|? ? Ht Hrest]; subst. simpl.
      rewrite IH by done. by apply step_other_profile. }
    unfold points. rewrite Heq. split; [apply total_le_points|done].
Qed.

Lemma totals_written_by_settlement_and_setup_witness :
  let evs :=
    [ FinalApproval None 140 Scenario.mona (Scenario.item Scenario.db_pending)
        "approve";
      ProfileSetup None 150 Scenario.paul "Paul" "picker" ] in
  points (step true Scenario.db_veteran
            (ProfileSetup None 200 Scenario.rita_again "Rita" "reporter")) "r1"
    "totalReporterPoints" = VNum 0
  ∧ total_le (points Scenario.db_veteran "r1" "totalReporterPoints")
      (points (run true Scenario.db_veteran evs) "r1" "totalReporterPoints").
Proof.
  destruct totals_written_by_settlement_and_setup as (_ & Hsetup & Hmono).
  split.
  - apply Hsetup. reflexivity.
  - apply Hmono. repeat constructor; discriminate.
Defined.

(** C6, refuted as stated: a profile setup is a plain overwrite. Run by a user
    whose profile holds 5 reporter points, it brings the total down to 0; no
    approval is involved. *)
Lemma setup_overwrites_points :
  let setup := ProfileSetup None 200 Scenario.rita_again "Rita" "reporter" in
  is_approval setup = false
  ∧ points Scenario.db_veteran "r1" "totalReporterPoints" = VNum 5
  ∧ points (run true Scenario.db_veteran [setup]) "r1" "totalReporterPoints"
    = VNum 0.
Proof. cbv zeta. repeat split; vm_compute; reflexivity. Qed.

(** ** The settlement the approve branch asks for *)

(** On a store that let the branch's reads through, the three updates would
    commit together: the report completed with both flags set, and each total
    replaced by the value read in the transaction plus the reward. *)
Lemma settlement_if_reads_tolerated now s db report rid d a b dr dp :
  userRole s = "monitor" →
  is_Some (userProfile s) →
  report !! "id" = Some (VStr rid) →
  reports db !! rid = Some d →
  seg (report !! "reporterId") = a →
  seg (report !! "pickerId") = b →
  a ≠ b →
  profiles db !! a = Some dr →
  profiles db !! b = Some dp →
  finalApprovalWith false None now s db report "approve"
  = (mkStore
       (<[b := {[ "totalPickerPoints" :=
                    js_add (num_or (dp !! "totalPickerPoints") 0) (rewardPicker report) ]}
               ∪ dp]>
        (<[a := {[ "totalReporterPoints" :=
                     js_add (num_or (dr !! "totalReporterPoints") 0)
                       (rewardReporter report) ]}
                ∪ dr]> (profiles db)))
       (<[rid := completed_fields s now report ∪ d]> (reports db)),
     [mkAlert "Report Approved" (rewards_text "Rewards issued: " report) success]).
Proof.
  intros Hrole [p Hp] Hid Hd Ha Hb Hab Hdr Hdp.
  unfold finalApprovalWith, no_profile.
  rewrite Hp, bool_decide_true by done. cbn [negb orb].
  unfold transact, approval_body. rewrite decide_True by done.
  cbn [run_body app commit].
  unfold reporterProfileRef, pickerProfileRef. rewrite (reportRef_id _ _ Hid), Ha, Hb.
  cbn [getDoc]. rewrite Hdr, Hdp. cbn [current_points].
  unfold applyUpdate at 1. cbn [getDoc]. rewrite Hd. cbn [putDoc].
  rewrite (applyUpdate_profile_Some _ a _ dr) by exact Hdr. cbn [profiles reports].
  rewrite (applyUpdate_profile_Some _ b _ dp)
    by (cbn [profiles]; by rewrite lookup_insert_ne).
  reflexivity.
Qed.

(** ** Rewards stored at creation *)

Lemma parse_take_digits_nonneg acc s :
  0 ≤ acc → 0 ≤ parse_digits acc (take_digits s).
Proof.
  revert acc. induction s as [|c rest IH]; intros acc Hacc; [done|]. simpl.
  destruct (is_digit c) eqn:Hc; [|done]. simpl. apply IH.
  unfold is_digit in Hc. apply andb_true_iff in Hc as [H1 _].
  apply Nat.leb_le in H1. lia.
Qed.

Lemma match_digits_take s numeric :
  match_digits s = Some numeric → ∃ s', numeric = take_digits s'.
Proof.
  induction s as [|c rest IH]; [done|]. simpl.
  destruct (is_digit c) eqn:Hc; [|exact IH].
  intros [= <-]. exists (String c rest). simpl. by rewrite Hc.
Qed.

Lemma round53_nonneg a : 0 ≤ a → 0 ≤ round53 a.
Proof.
  intros Ha. unfold round53. destruct (a <? 2 ^ 53); [done|].
  set (e := Z.log2 a - 52).
  assert (0 ≤ 2 ^ e) by (apply Z.pow_nonneg; lia).
  assert (0 ≤ a / 2 ^ e).
  { destruct (Z.eq_dec (2 ^ e) 0) as [->|]; [by rewrite Z.div_0_r|].
    apply Z.div_pos; lia. }
  destruct (_ || _); nia.
Qed.

Lemma to_double_nonneg m :
  0 ≤ m → to_double m = VInf false ∨ ∃ n, to_double m = VNum n ∧ 0 ≤ n.
Proof.
  intros Hm. unfold to_double. rewrite Z.abs_eq by done.
  pose proof (round53_nonneg m Hm).
  destruct (round53 m <? 2 ^ 1024).
  - right. eexists. split; [reflexivity|].
    destruct (Z.sgn_spec m) as [[? ->]|[[? ->]|[? ->]]]; lia.
  - left. f_equal. by apply Z.ltb_ge.
Qed.

(** Every report the engine creates carries a baseReward of at least 1 (it
    may be Infinity), so the default at approval time is never needed for
    them. *)
Lemma resolveBaseReward_pos json :
  resolveBaseReward json = VInf false
  ∨ ∃ n, resolveBaseReward json = VNum n ∧ 1 ≤ n.
Proof.
  unfold resolveBaseReward, getRewardSuggestionRemote.
  destruct (callGeminiForText json) as [| | |reply| |];
    try (right; exists 10; split; [reflexivity|lia]).
  destruct (match_digits reply) as [numeric|] eqn:E;
    [|right; exists 10; split; [reflexivity|lia]].
  destruct (match_digits_take _ _ E) as [s' ->].
  pose proof (parse_take_digits_nonneg 0 s' ltac:(lia)) as Hn.
  unfold parseInt.
  destruct (to_double_nonneg _ Hn) as [->|(n & -> & Hn')]; [by left|].
  right. simpl. destruct (Z.eqb_spec n 0); simpl.
  - exists 10. split; [reflexivity|lia].
  - exists n. split; [reflexivity|lia].
Qed.

(** * Further properties of the handlers *)

(** ** Outcomes of claim, proof and submission *)

(** X1: a claim raises exactly one notification. Either it is the success
    message and the stored report got status Claimed with the caller as picker,
    all its other fields and all other documents untouched; or it is an error
    and the store is unchanged. A claim never creates a document. *)
Theorem claim_outcome fault s db rid :
  ∃ a, (handleClaimReport fault s db rid).2 = [a]
    ∧ ((type a = success
        ∧ ∃ d d', reports db !! rid = Some d
            ∧ (handleClaimReport fault s db rid).1
              = mkStore (profiles db) (<[rid := d']> (reports db))
            ∧ d' !! "status" = Some (VStr "Claimed")
            ∧ d' !! "pickerId" = Some (id_value (userId s))
            ∧ d' !! "pickerName" = Some (VStr (userName s))
            ∧ ∀ field, field ∉ ["status"; "pickerId"; "pickerName"] →
                d' !! field = d !! field)
       ∨ (type a = error ∧ (handleClaimReport fault s db rid).1 = db)).
Proof.
  unfold handleClaimReport, updateDoc, applyUpdate.
  destruct (no_user s || no_profile s); [eexists; split; [done|by right]|].
  destruct fault; [eexists; split; [done|by right]|].
  cbn [getDoc]. destruct (reports db !! rid) as [d|] eqn:Hd;
    [|eexists; split; [done|by right]].
  eexists; split; [done|]. left. split; [done|].
  eexists d, _. split; [done|]. split; [reflexivity|].
  repeat split; try (apply lookup_union_Some_l; by simplify_map_eq).
  intros field Hf. apply lookup_union_r.
  rewrite !lookup_insert_ne, lookup_singleton_ne; [done|..];
    intros <-; apply Hf; apply list_elem_of_In; simpl; tauto.
Qed.

(** X2: a proof submission raises exactly one notification. Either it is the
    "Proof Submitted!" message and the stored report got status Pending Review
    with the photo, location and time recorded, its other fields (the picker
    among them) and all other documents untouched; or it is an error and the
    store is unchanged. *)
Theorem proof_outcome fault now s db rid r location :
  ∃ a, (handleSubmitProof fault now s db rid r location).2 = [a]
    ∧ ((type a = info
        ∧ ∃ img d d', r = Ok img ∧ reports db !! rid = Some d
            ∧ (handleSubmitProof fault now s db rid r location).1
              = mkStore (profiles db) (<[rid := d']> (reports db))
            ∧ d' !! "status" = Some (VStr "Pending Review")
            ∧ d' !! "cleanupPhotoUrl" = Some (VStr img)
            ∧ d' !! "pickerLocation" = Some location
            ∧ d' !! "proofSubmittedAt" = Some (VTime now)
            ∧ ∀ field,
                field ∉ ["status"; "cleanupPhotoUrl"; "pickerLocation";
                         "proofSubmittedAt"] →
                d' !! field = d !! field)
       ∨ (type a = error
          ∧ (handleSubmitProof fault now s db rid r location).1 = db)).
Proof.
  unfold handleSubmitProof, updateDoc, applyUpdate.
  destruct (no_user s || no_profile s); [eexists; split; [done|by right]|].
  destruct r as [img|e]; [|eexists; split; [done|by right]].
  destruct fault; [eexists; split; [done|by right]|].
  cbn [getDoc]. destruct (reports db !! rid) as [d|] eqn:Hd;
    [|eexists; split; [done|by right]].
  eexists; split; [done|]. left. split; [done|].
  eexists img, d, _. split; [done|]. split; [done|]. split; [reflexivity|].
  repeat split; try (apply lookup_union_Some_l; by simplify_map_eq).
  intros field Hf. apply lookup_union_r.
  rewrite !lookup_insert_ne, lookup_singleton_ne; [done|..];
    intros <-; apply Hf; apply list_elem_of_In; simpl; tauto.
Qed.

(** X3: a submission that goes through stores a report that is open for a
    claim: status Reported, no picker, no proof photo, both reward flags
    false, the submitter as reporter and a baseReward of at least 1 (a number,
    or Infinity for a reply with a number beyond the range of doubles),
    whatever the advisory reply was. Profiles and all other reports are
    untouched. *)
Theorem submission_stores_open_report env s db location img :
  no_user s = false →
  no_profile s = false →
  resized env = Ok img →
  storeFault env = None →
  ∃ doc,
    (handleReportSubmission env s db location).1
    = mkStore (profiles db) (<[newId env := doc]> (reports db))
    ∧ doc !! "status" = Some (VStr "Reported")
    ∧ doc !! "pickerId" = Some VNull
    ∧ doc !! "pickerName" = Some VNull
    ∧ doc !! "cleanupPhotoUrl" = None
    ∧ doc !! "reporterRewardIssued" = Some (VBool false)
    ∧ doc !! "pickerRewardIssued" = Some (VBool false)
    ∧ doc !! "reporterId" = Some (id_value (userId s))
    ∧ doc !! "originalImageUrl" = Some (VStr img)
    ∧ (doc !! "baseReward" = Some (VInf false)
       ∨ ∃ n, doc !! "baseReward" = Some (VNum n) ∧ 1 ≤ n).
Proof.
  intros Hu Hp Hr Hf.
  unfold handleReportSubmission, addDoc, setDoc.
  rewrite Hu, Hp, Hr, Hf. cbn [orb putDoc fst].
  eexists. split; [reflexivity|].
  unfold newReport. destruct (classifyWasteLocal (pick env)) as [c pr].
  repeat split; try (by simplify_map_eq).
  destruct (resolveBaseReward_pos (proxyReply env)) as [H|(n & H & Hn)].
  - left. rewrite H. by simplify_map_eq.
  - right. exists n. rewrite H. split; [by simplify_map_eq|done].
Qed.

Lemma submission_stores_open_report_witness :
  ∃ doc,
    (handleReportSubmission Scenario.submit_env Scenario.rita Scenario.db_start
       Scenario.here).1
    = mkStore (profiles Scenario.db_start)
        (<["rep1" := doc]> (reports Scenario.db_start))
    ∧ doc !! "status" = Some (VStr "Reported")
    ∧ doc !! "pickerId" = Some VNull
    ∧ doc !! "pickerName" = Some VNull
    ∧ doc !! "cleanupPhotoUrl" = None
    ∧ doc !! "reporterRewardIssued" = Some (VBool false)
    ∧ doc !! "pickerRewardIssued" = Some (VBool false)
    ∧ doc !! "reporterId" = Some (VStr "r1")
    ∧ doc !! "originalImageUrl" = Some (VStr "photo")
    ∧ (doc !! "baseReward" = Some (VInf false)
       ∨ ∃ n, doc !! "baseReward" = Some (VNum n) ∧ 1 ≤ n).
Proof.
  apply (submission_stores_open_report Scenario.submit_env Scenario.rita
           Scenario.db_start Scenario.here "photo"); reflexivity.
Defined.

(** X4: a submission that cannot go through (no user, no profile, an image
    that cannot be resized, a refused write) leaves the store as it was and
    raises exactly one notification, the error "Submission Failed". *)
Theorem submission_failure env s db location :
  no_user s = true ∨ no_profile s = true
  ∨ (∃ e, resized env = Err e) ∨ (∃ e, storeFault env = Some e) →
  ∃ msg,
    handleReportSubmission env s db location
    = (db, [mkAlert "Submission Failed" msg error]).
Proof.
  unfold handleReportSubmission, addDoc, setDoc.
  intros H.
  destruct (no_user s) eqn:Hu; [by eexists|].
  destruct (no_profile s) eqn:Hp; [by eexists|]. cbn [orb].
  destruct (resized env) as [img|e] eqn:Hr; [|by eexists].
  destruct (storeFault env) as [e|] eqn:Hf; [by eexists|].
  exfalso. destruct H as [H|[H|[[e H]|[e H]]]]; congruence.
Qed.

Lemma submission_failure_witness :
  ∃ msg,
    handleReportSubmission Scenario.submit_env Scenario.rita_again
      Scenario.db_start Scenario.here
    = (Scenario.db_start, [mkAlert "Submission Failed" msg error]).
Proof.
  apply submission_failure. right. left. reflexivity.
Defined.

(** ** Decisions that do not commit *)

(** X5: the reject branch announces "Report Rejected" inside the transaction
    body, before the commit. When the commit is refused, or the report
    document is gone, the store is unchanged and the monitor gets the
    announcement once for every run of the body (five times when the refusal
    is one the client retries, once otherwise) and "Approval Failed" last. *)
Theorem rejection_not_committed fault now s db report ty :
  userRole s = "monitor" →
  is_Some (userProfile s) →
  ty ≠ "approve" →
  is_Some fault ∨ getDoc db (reportRef report) = None →
  ∃ e,
    handleFinalApproval fault now s db report ty
    = (db,
       (replicate
          (match fault with
           | Some r => if refusal_retried r then 5%nat else 1%nat
           | None => 1%nat
           end)
          (mkAlert "Report Rejected" "Proof rejected. Report re-opened." error)
        ++ [mkAlert "Approval Failed" e error])%list).
Proof.
  intros Hrole [p Hp] Hty Hfail.
  unfold handleFinalApproval, finalApprovalWith, no_profile.
  rewrite Hp, bool_decide_true by done. cbn [negb orb].
  unfold transact, approval_body. rewrite decide_False by done.
  cbn [run_body app].
  destruct fault as [[m [|]]|]; [by eexists|by eexists|].
  destruct Hfail as [[? [=]]|Hmiss].
  cbn [commit]. unfold applyUpdate. rewrite Hmiss. by eexists.
Qed.

Lemma rejection_not_committed_witness :
  ∃ e,
    handleFinalApproval (Some (mkRefusal "The service is unavailable." true)) 130
      Scenario.mona Scenario.db_pending (Scenario.item Scenario.db_pending) "reject"
    = (Scenario.db_pending,
       (replicate 5
          (mkAlert "Report Rejected" "Proof rejected. Report re-opened." error)
        ++ [mkAlert "Approval Failed" e error])%list).
Proof.
  apply (rejection_not_committed (Some (mkRefusal "The service is unavailable." true)));
    [reflexivity | eexists; reflexivity | discriminate | left; eexists; reflexivity].
Defined.

(** ** Controls of a list item *)

Lemma has_status_one report st st' :
  has_status report st = true → st ≠ st' → has_status report st' = false.
Proof.
  rewrite has_status_true. intros H Hne. unfold has_status.
  apply bool_decide_eq_false. rewrite H. congruence.
Qed.

(** X6: a list item never shows two of the three transition controls at once:
    of "Claim Job", "Submit Proof" and Approve/Reject at most one is
    rendered, for any user and any report. *)
Theorem controls_exclusive s report showProof :
  let item := ReportItem s report showProof in
  (claimJob item && submitProof item = false)
  ∧ (claimJob item && approveReject item = false)
  ∧ (submitProof item && approveReject item = false).
Proof.
  unfold ReportItem. cbn [claimJob submitProof approveReject].
  destruct (bool_decide (userRole s = "picker")) eqn:Hp;
    destruct (bool_decide (userRole s = "monitor")) eqn:Hm; cbn [andb];
    try (repeat split; reflexivity || apply andb_false_r).
  - apply bool_decide_eq_true in Hp, Hm. congruence.
  - destruct (has_status report "Reported") eqn:Hr.
    + rewrite (has_status_one report "Reported" "Claimed") by done.
      repeat split; reflexivity || apply andb_false_r.
    + repeat split; reflexivity || apply andb_false_r.
Qed.


(** ** How the operations chain on a list item *)

Lemma snapshot_lookup rid (d : Doc) field :
  field ≠ "id" → snapshot rid d !! field = d !! field.
Proof.
  intros Hne. unfold snapshot. rewrite lookup_union.
  rewrite lookup_singleton_ne by done. by destruct (d !! field).
Qed.

Lemma id_value_inj u v : id_value u = id_value v → u = v.
Proof. destruct u, v; simpl; congruence. Qed.

(** X8: after a picker's claim has gone through on a report without a proof
    photo, the list item shows "Submit Proof" to that picker, to no user with
    another id, and "Claim Job" to nobody. *)
Theorem claim_then_proof_control s db rid d :
  no_user s || no_profile s = false →
  userRole s = "picker" →
  reports db !! rid = Some d →
  truthy (d !! "cleanupPhotoUrl") = false →
  ∃ d', reports (handleClaimReport None s db rid).1 !! rid = Some d'
    ∧ (∀ sp, submitProof (ReportItem s (snapshot rid d') sp) = true)
    ∧ (∀ u sp, userId u ≠ userId s →
               submitProof (ReportItem u (snapshot rid d') sp) = false)
    ∧ (∀ u sp, claimJob (ReportItem u (snapshot rid d') sp) = false).
Proof.
  intros Hready Hrole Hd Hphoto.
  rewrite (claim_result s db rid d Hready Hd). cbn [fst reports].
  eexists. split; [apply lookup_insert_eq|].
  set (d' := _ ∪ d).
  assert (d' !! "status" = Some (VStr "Claimed")) as Hst
    by (apply lookup_union_Some_l; by simplify_map_eq).
  assert (d' !! "pickerId" = Some (id_value (userId s))) as Hpk
    by (apply lookup_union_Some_l; by simplify_map_eq).
  assert (d' !! "cleanupPhotoUrl" = d !! "cleanupPhotoUrl") as Hph
    by (apply lookup_union_r; by simplify_map_eq).
  unfold ReportItem, has_status. cbn [claimJob submitProof].
  rewrite !snapshot_lookup by done. rewrite Hst, Hpk, Hph, Hphoto.
  split; [|split].
  - intros _. by rewrite !bool_decide_true.
  - intros u _ Hu.
    rewrite (bool_decide_false (Some (id_value (userId s)) = _))
      by (intros [= H%id_value_inj]; congruence).
    by rewrite andb_false_r.
  - intros u _.
    rewrite (bool_decide_false (Some (VStr "Claimed") = _)) by done.
    apply andb_false_r.
Qed.

Lemma claim_then_proof_control_witness :
  ∃ d', reports (handleClaimReport None Scenario.pat Scenario.db_reported "rep1").1
          !! "rep1" = Some d'
    ∧ (∀ sp, submitProof (ReportItem Scenario.pat (snapshot "rep1" d') sp) = true)
    ∧ (∀ u sp, userId u ≠ userId Scenario.pat →
               submitProof (ReportItem u (snapshot "rep1" d') sp) = false)
    ∧ (∀ u sp, claimJob (ReportItem u (snapshot "rep1" d') sp) = false).
Proof.
  apply (claim_then_proof_control Scenario.pat Scenario.db_reported "rep1"
           (default ∅ (reports Scenario.db_reported !! "rep1")));
    [reflexivity | reflexivity | vm_compute; reflexivity | vm_compute; reflexivity].
Defined.

(** X9: after a proof submission has gone through, the list item shows
    Approve and Reject to every monitor, and neither "Claim Job" nor "Submit
    Proof" to anyone. *)
Theorem proof_then_review now s db rid d img location :
  no_user s || no_profile s = false →
  reports db !! rid = Some d →
  ∃ d', reports (handleSubmitProof None now s db rid (Ok img) location).1 !! rid
        = Some d'
    ∧ (∀ m sp, userRole m = "monitor" →
               approveReject (ReportItem m (snapshot rid d') sp) = true)
    ∧ (∀ u sp, claimJob (ReportItem u (snapshot rid d') sp) = false
               ∧ submitProof (ReportItem u (snapshot rid d') sp) = false).
Proof.
  intros Hready Hd.
  unfold handleSubmitProof, updateDoc, applyUpdate. rewrite Hready.
  cbn [getDoc]. rewrite Hd. cbn [fst putDoc reports].
  eexists. split; [apply lookup_insert_eq|].
  set (d' := _ ∪ d).
  assert (d' !! "status" = Some (VStr "Pending Review")) as Hst
    by (apply lookup_union_Some_l; by simplify_map_eq).
  unfold ReportItem, has_status. cbn [claimJob submitProof approveReject].
  rewrite !snapshot_lookup by done. rewrite Hst.
  split.
  - intros m _ Hm. by rewrite !bool_decide_true.
  - intros u _.
    rewrite (bool_decide_false (Some (VStr "Pending Review") = Some (VStr "Reported")))
      by done.
    rewrite (bool_decide_false (Some (VStr "Pending Review") = Some (VStr "Claimed")))
      by done.
    by rewrite !andb_false_r.
Qed.

Lemma proof_then_review_witness :
  ∃ d', reports (handleSubmitProof None 120 Scenario.pat Scenario.db_claimed "rep1"
                   (Ok "proof") Scenario.here).1 !! "rep1"
        = Some d'
    ∧ (∀ m sp, userRole m = "monitor" →
               approveReject (ReportItem m (snapshot "rep1" d') sp) = true)
    ∧ (∀ u sp, claimJob (ReportItem u (snapshot "rep1" d') sp) = false
               ∧ submitProof (ReportItem u (snapshot "rep1" d') sp) = false).
Proof.
  apply (proof_then_review 120 Scenario.pat Scenario.db_claimed "rep1"
           (default ∅ (reports Scenario.db_claimed !! "rep1")));
    [reflexivity | vm_compute; reflexivity].
Defined.

(** X10: the proof photo outlives a rejection. If a rejected report is
    claimed again through [handleClaimReport], it is Claimed by the new picker
    but still carries the old photo, so its list item shows no "Submit Proof"
    (and no other transition control) to anyone: the new picker cannot hand in
    a proof. *)
Theorem reclaimed_report_is_stuck now m s db report rid d img :
  userRole m = "monitor" →
  is_Some (userProfile m) →
  report !! "id" = Some (VStr rid) →
  reports db !! rid = Some d →
  d !! "cleanupPhotoUrl" = Some (VStr img) →
  img ≠ "" →
  no_user s || no_profile s = false →
  ∃ d2,
    reports (handleClaimReport None s
               (handleFinalApproval None now m db report "reject").1 rid).1 !! rid
    = Some d2
    ∧ d2 !! "status" = Some (VStr "Claimed")
    ∧ d2 !! "pickerId" = Some (id_value (userId s))
    ∧ d2 !! "cleanupPhotoUrl" = Some (VStr img)
    ∧ ∀ u sp,
        claimJob (ReportItem u (snapshot rid d2) sp) = false
        ∧ submitProof (ReportItem u (snapshot rid d2) sp) = false
        ∧ approveReject (ReportItem u (snapshot rid d2) sp) = false.
Proof.
  intros Hrole Hp Hid Hd Himg Hne Hready.
  rewrite (reject_result now m db report rid d) by done. cbn [fst].
  erewrite claim_result; [|done|apply lookup_insert_eq]. cbn [fst reports].
  eexists. split; [apply lookup_insert_eq|].
  set (d2 := _ ∪ (rejected_fields m ∪ d)).
  assert (d2 !! "status" = Some (VStr "Claimed")) as Hst
    by (apply lookup_union_Some_l; by simplify_map_eq).
  assert (d2 !! "pickerId" = Some (id_value (userId s))) as Hpk
    by (apply lookup_union_Some_l; by simplify_map_eq).
  assert (d2 !! "cleanupPhotoUrl" = Some (VStr img)) as Hph.
  { unfold d2. rewrite lookup_union_r by (by simplify_map_eq).
    rewrite lookup_union_r; [done|]. apply rejected_fields_other.
    rewrite list_elem_of_In. simpl. intros H. decompose [or] H; done. }
  split; [done|]. split; [done|]. split; [done|].
  intros u sp. unfold ReportItem, has_status.
  cbn [claimJob submitProof approveReject].
  rewrite !snapshot_lookup by done. rewrite Hst, Hph.
  rewrite (bool_decide_false (Some (VStr "Claimed") = Some (VStr "Reported"))) by done.
  rewrite (bool_decide_false (Some (VStr "Claimed") = Some (VStr "Pending Review")))
    by done.
  assert (truthy (Some (VStr img)) = true) as ->
    by (simpl; by rewrite bool_decide_false).
  by rewrite !andb_false_r.
Qed.

Lemma reclaimed_report_is_stuck_witness :
  ∃ d2,
    reports (handleClaimReport None Scenario.paul
               (handleFinalApproval None 130 Scenario.mona Scenario.db_pending
                  (Scenario.item Scenario.db_pending) "reject").1 "rep1").1 !! "rep1"
    = Some d2
    ∧ d2 !! "status" = Some (VStr "Claimed")
    ∧ d2 !! "pickerId" = Some (VStr "p2")
    ∧ d2 !! "cleanupPhotoUrl" = Some (VStr "proof")
    ∧ ∀ u sp,
        claimJob (ReportItem u (snapshot "rep1" d2) sp) = false
        ∧ submitProof (ReportItem u (snapshot "rep1" d2) sp) = false
        ∧ approveReject (ReportItem u (snapshot "rep1" d2) sp) = false.
Proof.
  apply (reclaimed_report_is_stuck 130 Scenario.mona Scenario.paul
           Scenario.db_pending (Scenario.item Scenario.db_pending) "rep1"
           (default ∅ (reports Scenario.db_pending !! "rep1")) "proof");
    [reflexivity | eexists; reflexivity | vm_compute; reflexivity
    | vm_compute; reflexivity | vm_compute; reflexivity | discriminate
    | reflexivity].
Defined.

(** ** Profile setup *)

(** X11: a profile setup that goes through replaces the caller's profile
    document and merges nothing: the new document holds the given name and
    role and both totals 0, and no field outside name, role, the two totals,
    dateJoined and publicUserId, whatever the old document held. *)
Theorem setup_replaces_profile now s db name role :
  no_user s = false →
  ∃ doc,
    profiles (handleProfileSetup None now s db name role).1
      !! seg (Some (id_value (userId s))) = Some doc
    ∧ doc !! "name" = Some (VStr name)
    ∧ doc !! "role" = Some (VStr role)
    ∧ doc !! "totalReporterPoints" = Some (VNum 0)
    ∧ doc !! "totalPickerPoints" = Some (VNum 0)
    ∧ ∀ k, k ∉ ["name"; "role"; "totalReporterPoints"; "totalPickerPoints";
                "dateJoined"; "publicUserId"] →
           doc !! k = None.
Proof.
  intros Hu. unfold handleProfileSetup, setDoc. rewrite Hu.
  cbn [fst putDoc profiles]. eexists. split; [apply lookup_insert_eq|].
  repeat split; try (by simplify_map_eq).
  intros k Hk.
  rewrite !lookup_insert_ne, lookup_singleton_ne; [done|..];
    intros <-; apply Hk; apply list_elem_of_In; simpl; tauto.
Qed.

Lemma setup_replaces_profile_witness :
  ∃ doc,
    profiles (handleProfileSetup None 200 Scenario.rita_again Scenario.db_veteran
                "Rita B." "picker").1 !! "r1" = Some doc
    ∧ doc !! "name" = Some (VStr "Rita B.")
    ∧ doc !! "role" = Some (VStr "picker")
    ∧ doc !! "totalReporterPoints" = Some (VNum 0)
    ∧ doc !! "totalPickerPoints" = Some (VNum 0)
    ∧ ∀ k, k ∉ ["name"; "role"; "totalReporterPoints"; "totalPickerPoints";
                "dateJoined"; "publicUserId"] →
           doc !! k = None.
Proof.
  apply (setup_replaces_profile 200 Scenario.rita_again Scenario.db_veteran
           "Rita B." "picker").
  reflexivity.
Defined.

(** ** What a sequence of operations can do to the reports *)

Local Ltac field_not_written Hk :=
  rewrite ?lookup_insert_ne, ?lookup_singleton_ne; [done|..];
  intros <-; apply Hk; apply list_elem_of_In; simpl; tauto.

Local Ltac status_written :=
  eexists; split; [by simplify_map_eq|apply list_elem_of_In; simpl; tauto].

(** One operation leaves the reports as they were, or stores a new report, or
    overwrites fields of one existing report; the overwritten fields are among
    [written_fields] and include a status out of [statuses]. *)
Lemma step_reports enforce db e :
  reports (step enforce db e) = reports db
  ∨ (∃ env s loc img,
       e = ReportSubmission env s loc
       ∧ reports (step enforce db e)
         = <[newId env := newReport s env img loc]> (reports db))
  ∨ (∃ rid d f,
       reports db !! rid = Some d
       ∧ reports (step enforce db e) = <[rid := f ∪ d]> (reports db)
       ∧ (∀ k, k ∉ written_fields → f !! k = None)
       ∧ ∃ st, f !! "status" = Some (VStr st) ∧ st ∈ statuses).
Proof.
  destruct e as [fault now s name role | env s loc | fault s rid
                 | fault now s rid r loc | fault now s report ty]; simpl.
  - left. unfold handleProfileSetup, setDoc.
    destruct (no_user s); [done|]. by destruct fault.
  - unfold handleReportSubmission, addDoc, setDoc.
    destruct (no_user s || no_profile s); [by left|].
    destruct (resized env) as [img|]; [|by left].
    destruct (storeFault env); [by left|].
    right; left. by eexists env, s, loc, img.
  - unfold handleClaimReport, updateDoc, applyUpdate.
    destruct (no_user s || no_profile s); [by left|].
    destruct fault; [by left|]. cbn [getDoc].
    destruct (reports db !! rid) as [d|] eqn:Hd; [|by left].
    right; right. eexists rid, d, _. split; [done|]. split; [reflexivity|].
    split; [intros k Hk; field_not_written Hk|status_written].
  - unfold handleSubmitProof, updateDoc, applyUpdate.
    destruct (no_user s || no_profile s); [by left|].
    destruct r; [|by left].
    destruct fault; [by left|]. cbn [getDoc].
    destruct (reports db !! rid) as [d|] eqn:Hd; [|by left].
    right; right. eexists rid, d, _. split; [done|]. split; [reflexivity|].
    split; [intros k Hk; field_not_written Hk|status_written].
  - unfold finalApprovalWith. destruct (negb _ || _); [by left|].
    destruct (transact _ _ _ _) as [[db' [e|]] al] eqn:E; cbn [fst].
    { left. by rewrite (transact_all_or_nothing _ _ _ _ _ _ _ E). }
    revert E. unfold transact, approval_body, reportRef.
    set (rid := seg (report !! "id")).
    case_decide.
    + destruct enforce; cbn [run_body app]; [done|].
      destruct fault; [done|]. cbn [commit].
      unfold applyUpdate at 1. cbn [getDoc].
      destruct (reports db !! rid) as [d|] eqn:Hd; [|done].
      destruct (applyUpdate _ (reporterProfileRef report) _) as [db2|] eqn:E2;
        [|done].
      destruct (applyUpdate db2 (pickerProfileRef report) _) as [db3|] eqn:E3;
        [|done].
      intros [= <- _].
      apply applyUpdate_reports_profile in E2, E3. rewrite E3, E2.
      right; right. eexists rid, d, _. split; [done|]. split; [reflexivity|].
      unfold completed_fields.
      split; [intros k Hk; field_not_written Hk|status_written].
    + cbn [run_body app]. destruct fault; [done|]. cbn [commit].
      unfold applyUpdate. cbn [getDoc].
      destruct (reports db !! rid) as [d|] eqn:Hd; [|done].
      intros [= <- _].
      right; right. eexists rid, d, _. split; [done|]. split; [reflexivity|].
      unfold rejected_fields.
      split; [intros k Hk; field_not_written Hk|status_written].
Qed.

(** X12: what a report got at creation stays: over any sequence of operations
    that does not store a new report under the same id, every field outside
    the twelve the claim, proof and decision handlers write (reporterId,
    reporterName, baseReward, location, the original image, classification,
    priority and reportedAt among them) keeps its value. *)
Theorem creation_fields_immutable enforce evs db rid field :
  field ∉ written_fields →
  Forall (λ e, created_report e ≠ Some rid) evs →
  reports (run enforce db evs) !! rid ≫= (.!! field)
  = reports db !! rid ≫= (.!! field).
Proof.
  intros Hf. revert db. induction evs as [|e evs IH]; intros db Hall; [done|].
  inversion Hall as [|? ? He Hrest]; subst. simpl. rewrite IH by done.
  destruct (step_reports enforce db e)
    as [->|[(env & s & loc & img & -> & ->)|(r & d & f & Hd & -> & Hk & _)]];
    [done|..].
  - simpl in He. rewrite lookup_insert_ne by congruence. done.
  - destruct (decide (r = rid)) as [->|Hne].
    + rewrite lookup_insert_eq, Hd. simpl. apply lookup_union_r. by apply Hk.
    + by rewrite lookup_insert_ne.
Qed.

Lemma creation_fields_immutable_witness :
  reports (run true Scenario.db_reported (tail Scenario.events)) !! "rep1"
    ≫= (.!! "baseReward")
  = reports Scenario.db_reported !! "rep1" ≫= (.!! "baseReward").
Proof.
  apply creation_fields_immutable.
  - rewrite list_elem_of_In. simpl. intros H. decompose [or] H; discriminate || done.
  - repeat constructor; discriminate.
Defined.

(** X13: the handlers write no status but the five of the lifecycle: if every
    stored report has one of them, so has every stored report after any
    sequence of operations. *)
Theorem statuses_stay_valid enforce evs db :
  statuses_valid db → statuses_valid (run enforce db evs).
Proof.
  revert db. induction evs as [|e evs IH]; intros db Hv; [done|].
  simpl. apply IH. intros rid d.
  destruct (step_reports enforce db e)
    as [->|[(env & s & loc & img & -> & ->)|(r & d0 & f & Hd & -> & _ & st & Hst & Hin)]];
    [by apply Hv|..].
  - destruct (decide (newId env = rid)) as [->|Hne].
    + rewrite lookup_insert_eq. intros [= <-]. exists "Reported".
      split; [|apply list_elem_of_In; simpl; tauto].
      unfold newReport. destruct (classifyWasteLocal (pick env)). by simplify_map_eq.
    + rewrite lookup_insert_ne by done. apply Hv.
  - destruct (decide (r = rid)) as [->|Hne].
    + rewrite lookup_insert_eq. intros [= <-]. exists st.
      split; [by apply lookup_union_Some_l|done].
    + rewrite lookup_insert_ne by done. apply Hv.
Qed.

Lemma statuses_stay_valid_witness :
  statuses_valid (run true Scenario.db_start Scenario.events).
Proof.
  apply statuses_stay_valid. intros rid d H. vm_compute in H. discriminate H.
Defined.

(** X14: no operation deletes a report: a report that is stored stays stored
    over any sequence of operations, terminal ones included. *)
Theorem reports_never_deleted enforce evs db rid :
  is_Some (reports db !! rid) →
  is_Some (reports (run enforce db evs) !! rid).
Proof.
  revert db. induction evs as [|e evs IH]; intros db Hs; [done|].
  simpl. apply IH.
  destruct (step_reports enforce db e)
    as [->|[(env & s & loc & img & -> & ->)|(r & d & f & Hd & -> & _)]];
    [done|..].
  - rewrite lookup_insert_is_Some.
    destruct (decide (newId env = rid)); [by left|by right].
  - rewrite lookup_insert_is_Some. destruct (decide (r = rid)); [by left|by right].
Qed.

Lemma reports_never_deleted_witness :
  is_Some (reports (run true Scenario.db_reported (tail Scenario.events)) !! "rep1").
Proof.
  apply reports_never_deleted. eexists. vm_compute. reflexivity.
Defined.

(** ** Routing on the profile listener *)

(** X15: which screen [App] shows after a profile event depends only on
    whether the profile document exists. A missing document and an error of
    any code (permission-denied or other) put the application in the very
    same state, the setup form; an existing profile always leads to the main
    screen, also when the setup form was showing. *)
Theorem profile_routing st :
  (∀ code, onProfileSnapshot st (SnapshotError code)
           = onProfileSnapshot st SnapshotMissing)
  ∧ screen true (onProfileSnapshot st SnapshotMissing) = SetupScreen
  ∧ (∀ data, screen true (onProfileSnapshot st (SnapshotExists data)) = MainScreen
             ∧ appProfile (onProfileSnapshot st (SnapshotExists data))
               = ProfileReady data).
Proof.
  split; [|split].
  - intros code. simpl. by case_decide.
  - reflexivity.
  - intros data. split; [|reflexivity].
    unfold screen, onProfileSnapshot. cbn [negb view appProfile].
    case_decide as Hv.
    + by rewrite bool_decide_false.
    + by rewrite bool_decide_false.
Qed.

(** ** The proxy and the reward suggestion *)

Lemma proxy_relay_ok key st j :
  no_key key = false → 200 ≤ st ≤ 299 →
  callGeminiProxy (Ok (handler key (Ok (mkResponse st (Some j))))) = Some j.
Proof.
  intros Hkey [H1 H2]. unfold callGeminiProxy, handler, response_ok.
  rewrite Hkey. cbn [http_status http_body].
  destruct (Z.leb_spec 200 st), (Z.leb_spec st 299); try lia. done.
Qed.

(** X17: the client gets a reply from the proxy exactly when the proxy has a
    key and the model endpoint answered with an ok status and a JSON body, and
    what it gets is that body unchanged. A missing key, a failed fetch, a body
    that is not JSON and a status outside 200..299 all reach the client as
    null. *)
Theorem proxy_relays_upstream key upstream j :
  callGeminiProxy (Ok (handler key upstream)) = Some j
  ↔ no_key key = false
    ∧ ∃ st, upstream = Ok (mkResponse st (Some j)) ∧ 200 ≤ st ≤ 299.
Proof.
  unfold callGeminiProxy, handler, response_ok. split.
  - destruct (no_key key); [done|].
    destruct upstream as [[st body]|e]; [|done].
    destruct body as [data|]; [|done]. cbn [http_status http_body].
    destruct (Z.leb_spec 200 st), (Z.leb_spec st 299); try done.
    intros [= ->]. split; [done|]. by exists st.
  - intros [Hkey (st & -> & Hst)]. by apply proxy_relay_ok.
Qed.

Lemma is_digit_pretty_char d : is_digit (pretty_N_char d) = true.
Proof. unfold pretty_N_char. by repeat case_match. Qed.

Lemma pretty_char_value d :
  (d < 10)%N → Z.of_nat (nat_of_ascii (pretty_N_char d)) - 48 = Z.of_N d.
Proof.
  intros Hd.
  assert (d = 0 ∨ d = 1 ∨ d = 2 ∨ d = 3 ∨ d = 4 ∨ d = 5 ∨ d = 6 ∨ d = 7
          ∨ d = 8 ∨ d = 9)%N as H by lia.
  decompose [or] H; subst; reflexivity.
Qed.

Lemma pretty_N_go_append x s t :
  pretty_N_go x s +:+ t = pretty_N_go x (s +:+ t).
Proof.
  revert s. induction (N.lt_wf_0 x) as [x _ IH]; intros s.
  assert (x = 0 ∨ 0 < x)%N as [->|Hx] by lia; [by rewrite !pretty_N_go_0|].
  rewrite (pretty_N_go_step x s), (pretty_N_go_step x (s +:+ t)) by done.
  rewrite IH by (by apply N.div_lt). done.
Qed.

Lemma pretty_N_go_nonempty x s : s ≠ "" → pretty_N_go x s ≠ "".
Proof.
  revert s. induction (N.lt_wf_0 x) as [x _ IH]; intros s Hs.
  assert (x = 0 ∨ 0 < x)%N as [->|Hx] by lia; [by rewrite pretty_N_go_0|].
  rewrite pretty_N_go_step by done. apply IH; [by apply N.div_lt|done].
Qed.

Lemma take_digits_pretty x s :
  take_digits (pretty_N_go x s) = pretty_N_go x (take_digits s).
Proof.
  revert s. induction (N.lt_wf_0 x) as [x _ IH]; intros s.
  assert (x = 0 ∨ 0 < x)%N as [->|Hx] by lia; [by rewrite !pretty_N_go_0|].
  rewrite (pretty_N_go_step x s), (pretty_N_go_step x (take_digits s)) by done.
  rewrite IH by (by apply N.div_lt).
  simpl. by rewrite is_digit_pretty_char.
Qed.

Lemma parse_digits_linear acc s :
  parse_digits acc s
  = acc * 10 ^ Z.of_nat (String.length s) + parse_digits 0 s.
Proof.
  revert acc. induction s as [|c rest IH]; intros acc; [simpl; lia|].
  cbn [parse_digits String.length]. rewrite Nat2Z.inj_succ, Z.pow_succ_r by lia.
  rewrite (IH (10 * acc + _)), (IH (10 * 0 + _)). lia.
Qed.

Lemma parse_digits_pretty x s :
  parse_digits 0 (pretty_N_go x s)
  = Z.of_N x * 10 ^ Z.of_nat (String.length s) + parse_digits 0 s.
Proof.
  revert s. induction (N.lt_wf_0 x) as [x _ IH]; intros s.
  assert (x = 0 ∨ 0 < x)%N as [->|Hx] by lia;
    [rewrite pretty_N_go_0; simpl; lia|].
  rewrite pretty_N_go_step by done. rewrite IH by (by apply N.div_lt).
  cbn [parse_digits String.length].
  rewrite (parse_digits_linear (10 * 0 + _)).
  rewrite pretty_char_value by (by apply N.mod_lt).
  rewrite Nat2Z.inj_succ, Z.pow_succ_r by lia.
  pose proof (N.div_mod x 10 ltac:(done)) as Hdm.
  assert (Z.of_N x = 10 * Z.of_N (x `div` 10) + Z.of_N (x `mod` 10)) as -> by lia.
  lia.
Qed.

Lemma match_digits_skip pre s :
  no_digit pre = true → match_digits (pre +:+ s) = match_digits s.
Proof.
  induction pre as [|c rest IH]; [done|]. simpl.
  destruct (is_digit c); [done|]. exact IH.
Qed.

Lemma match_digits_start s :
  take_digits s ≠ "" → match_digits s = Some (take_digits s).
Proof. destruct s as [|c rest]; [done|]. simpl. by destruct (is_digit c). Qed.

(** The first number of a reply text is what the suggestion helper returns. *)
Lemma first_number_parsed pre post (n : N) :
  no_digit pre = true → take_digits post = "" →
  match_digits (pre +:+ pretty n +:+ post) = Some (pretty n)
  ∧ parse_digits 0 (pretty n) = Z.of_N n.
Proof.
  intros Hpre Hpost. rewrite match_digits_skip by done.
  unfold pretty, pretty_N. case_decide as Hn.
  - subst. change ("0" +:+ post) with (String "0" post). simpl.
    by rewrite Hpost.
  - rewrite pretty_N_go_append. change ("" +:+ post) with post.
    assert (take_digits (pretty_N_go n post) = pretty_N_go n "") as Ht
      by (by rewrite take_digits_pretty, Hpost).
    split.
    + rewrite match_digits_start; rewrite Ht; [done|].
      rewrite pretty_N_go_step by lia. by apply pretty_N_go_nonempty.
    + rewrite parse_digits_pretty. simpl. lia.
Qed.

(** X18: when the proxy has a key and the model endpoint answers ok with a
    reply of the expected shape, the suggestion is the first decimal number in
    the reply text, whatever text surrounds it, as long as the number is
    below 2^53 (beyond that the code gets the nearest double); that number is
    stored as the report's baseReward unless it is 0, in which case 10 is
    stored. *)
Theorem reward_is_first_number key st pre post (n : N) :
  Z.of_N n < 2 ^ 53 →
  no_key key = false →
  200 ≤ st ≤ 299 →
  no_digit pre = true →
  take_digits post = "" →
  let json :=
    callGeminiProxy (Ok (handler key (Ok (mkResponse st
      (Some (gemini_reply (JStr (pre +:+ pretty n +:+ post)))))))) in
  getRewardSuggestionRemote json = Ok (VNum (Z.of_N n))
  ∧ resolveBaseReward json
    = if decide (n = 0%N) then VNum 10 else VNum (Z.of_N n).
Proof.
  intros Hn53 Hkey Hst Hpre Hpost json.
  assert (json = Some (gemini_reply (JStr (pre +:+ pretty n +:+ post)))) as ->.
  { by apply proxy_relay_ok. }
  destruct (first_number_parsed pre post n Hpre Hpost) as [Hm Hp].
  assert (getRewardSuggestionRemote
            (Some (gemini_reply (JStr (pre +:+ pretty n +:+ post))))
          = Ok (VNum (Z.of_N n))) as Hg.
  { unfold getRewardSuggestionRemote.
    change (callGeminiForText (Some (gemini_reply ?t))) with t. cbv beta iota.
    rewrite Hm. unfold parseInt. rewrite Hp, to_double_small by lia. done. }
  split; [exact Hg|]. unfold resolveBaseReward. rewrite Hg.
  case_decide as Hn; [by subst|]. simpl.
  destruct (Z.eqb_spec (Z.of_N n) 0); [lia|done].
Qed.

Lemma reward_is_first_number_witness :
  let json :=
    callGeminiProxy (Ok (handler (Some "key") (Ok (mkResponse 200
      (Some (gemini_reply (JStr ("About " +:+ pretty 25%N +:+ " points, or 30.")))))))) in
  getRewardSuggestionRemote json = Ok (VNum 25)
  ∧ resolveBaseReward json = VNum 25.
Proof.
  apply (reward_is_first_number (Some "key") 200 "About " " points, or 30." 25%N);
    [reflexivity | reflexivity | lia | reflexivity | reflexivity].
Defined.

(** ** Profile setup outcome *)

(** X19: a profile setup without a signed-in user does nothing and says
    nothing. Otherwise it raises exactly one notification: on success the
    caller's own profile document is replaced by one with the given name and
    role, the caller's id and both totals 0, every other profile and every
    report untouched; on an error the store is unchanged. *)
Theorem setup_outcome fault now s db name role :
  (no_user s = true ∧ handleProfileSetup fault now s db name role = (db, []))
  ∨ ∃ a, (handleProfileSetup fault now s db name role).2 = [a]
      ∧ ((type a = success
          ∧ ∃ uid doc, userId s = Some uid
              ∧ (handleProfileSetup fault now s db name role).1
                = mkStore (<[uid := doc]> (profiles db)) (reports db)
              ∧ doc !! "name" = Some (VStr name)
              ∧ doc !! "role" = Some (VStr role)
              ∧ doc !! "totalReporterPoints" = Some (VNum 0)
              ∧ doc !! "totalPickerPoints" = Some (VNum 0)
              ∧ doc !! "publicUserId" = Some (VStr uid))
         ∨ (type a = error
            ∧ (handleProfileSetup fault now s db name role).1 = db)).
Proof.
  unfold handleProfileSetup, setDoc.
  destruct (no_user s) eqn:Hu; [by left|]. right.
  destruct fault; [eexists; split; [done|by right]|].
  eexists; split; [done|]. left. split; [done|].
  destruct (userId s) as [uid|] eqn:Hid; [|by unfold no_user in Hu; rewrite Hid in Hu].
  exists uid. eexists. split; [done|]. split; [reflexivity|].
  repeat split; by simplify_map_eq.
Qed.

(** ** List items address their own document *)

Lemma step_no_id_field enforce db e : no_id_field db → no_id_field (step enforce db e).
Proof.
  intros Hn rid d.
  destruct (step_reports enforce db e)
    as [->|[(env & s & loc & img & -> & ->)|(r & d0 & f & Hd & -> & Hk & _)]];
    [by apply Hn|..].
  - destruct (decide (newId env = rid)) as [->|Hne].
    + rewrite lookup_insert_eq. intros [= <-].
      unfold newReport. destruct (classifyWasteLocal (pick env)). by simplify_map_eq.
    + rewrite lookup_insert_ne by done. apply Hn.
  - destruct (decide (r = rid)) as [->|Hne].
    + rewrite lookup_insert_eq. intros [= <-].
      rewrite lookup_union_r; [by eapply Hn|]. apply Hk.
      rewrite list_elem_of_In. simpl. intros H. decompose [or] H; done.
    + rewrite lookup_insert_ne by done. apply Hn.
Qed.

(** X20: the list item of a report carries the document's own id. Starting
    from a store in which no report has a field named id, after any sequence
    of operations the snapshot of every stored report has its document id as
    id, so a decision taken on the item is addressed to that document. *)
Theorem snapshot_addresses_own_document enforce evs db rid d :
  no_id_field db →
  reports (run enforce db evs) !! rid = Some d →
  snapshot rid d !! "id" = Some (VStr rid)
  ∧ reportRef (snapshot rid d) = ReportRef rid.
Proof.
  intros Hn Hd.
  assert (no_id_field (run enforce db evs)) as Hn'.
  { clear Hd. revert db Hn. induction evs as [|e evs IH]; intros db Hn; [done|].
    simpl. apply IH. by apply step_no_id_field. }
  assert (snapshot rid d !! "id" = Some (VStr rid)) as Hid.
  { unfold snapshot. rewrite lookup_union_r by (by eapply Hn').
    apply lookup_singleton_eq. }
  split; [exact Hid|]. by apply reportRef_id.
Qed.

Lemma snapshot_addresses_own_document_witness :
  snapshot "rep1" (default ∅ (reports Scenario.db_rejected !! "rep1")) !! "id"
  = Some (VStr "rep1")
  ∧ reportRef (snapshot "rep1" (default ∅ (reports Scenario.db_rejected !! "rep1")))
    = ReportRef "rep1".
Proof.
  apply (snapshot_addresses_own_document true Scenario.events Scenario.db_start).
  - intros rid d H. vm_compute in H. discriminate H.
  - vm_compute. reflexivity.
Defined.

Lemma proxy_relays_upstream_witness :
  callGeminiProxy
    (Ok (handler (Some "key")
           (Ok (mkResponse 200 (Some (gemini_reply (JStr "12")))))))
  = Some (gemini_reply (JStr "12")).
Proof.
  apply proxy_relays_upstream. split; [reflexivity|].
  exists 200. split; [reflexivity|lia].
Defined.
